(** * QtXBee: the XBee driver object of src/qtxb/xbee.cpp

    A shallow embedding of the deframer ([XBee::readData]), the frame
    dispatcher ([XBee::processPacket]), the AT-response handler
    ([XBee::processATCommandRespone]), the two command senders
    ([XBee::sendATCommandAsync], [XBee::sendATCommandSync]) and the startup
    handshake ([XBee::startupCheck]).

    Bytes are [Byte.byte]; a [QByteArray] is a [list byte]; C++ integers are
    [Z] with their conversions written out; the object's members are the
    fields of the record [XBee]; signals emitted by a call are returned as a
    list, in emission order; a call whose behaviour C++ leaves undefined (a
    NULL dereference, an index out of range) returns [Undefined]. *)

From Stdlib Require Import ZArith List Bool Lia String Ascii.
From Stdlib Require Init.Byte.
Import ListNotations.

Local Open Scope Z_scope.

Definition byte : Set := Init.Byte.byte.

(** ** C++ integer conversions *)

Module Cxx.

(** [(unsigned char) c] for a [char] holding the byte [b]. *)
Definition uchar (b : byte) : Z := Z.of_N (Byte.to_N b).

(** The value of a [char] where [char] is a signed type. *)
Definition schar (b : byte) : Z :=
  if uchar b <? 128 then uchar b else uchar b - 256.

(** The value of the plain [char] returned by [QByteArray::at]: the
    signedness of [char] is the platform's choice (signed on the x86 and
    x86-64 ABIs, unsigned on ARM Linux). *)
Definition char_value (char_is_signed : bool) (b : byte) : Z :=
  if char_is_signed then schar b else uchar b.

(** Conversion of an [int] or [unsigned] to [unsigned char]. *)
Definition to_uchar (z : Z) : Z := z mod 256.

(** Conversion to [unsigned] (32 bits). *)
Definition to_unsigned (z : Z) : Z := z mod 2 ^ 32.

(** Conversion of an [unsigned] to [int] (32 bits, two's complement). *)
Definition to_int (z : Z) : Z :=
  let u := z mod 2 ^ 32 in
  if u <? 2 ^ 31 then u else u - 2 ^ 32.

(** Conversion to an unsigned integer of [w] bits ([quint8], [quint16],
    [quint32]). *)
Definition to_quint (w : Z) (z : Z) : Z := z mod 2 ^ w.

Definition INT_MAX : Z := 2 ^ 31 - 1.

End Cxx.

(** ** The [QByteArray] and [QString] operations the driver calls (Qt 5) *)

Module QByteArray.

Definition t := list byte.

Definition size (a : t) : Z := Z.of_nat (List.length a).

Definition isEmpty (a : t) : bool :=
  match a with [] => true | _ => false end.

(** [at(i)]: the byte at [i], nothing out of range. *)
Definition at_ (a : t) (i : nat) : option byte := nth_error a i.

(** [endsWith(char c)] *)
Definition endsWith (a : t) (c : byte) : bool :=
  match rev a with
  | [] => false
  | l :: _ => Byte.eqb l c
  end.

(** [left(int len)]: the whole array when [len >= size], the empty array
    when [len < 0], else the first [len] bytes. *)
Definition left (a : t) (len : Z) : t :=
  if size a <=? len then a
  else if len <? 0 then []
  else firstn (Z.to_nat len) a.

(** [remove(int pos, int len)] at [pos = 0]: nothing when [len <= 0] or the
    array is empty, truncation to the empty array when [len >= size], else
    the bytes after the first [len]. *)
Definition remove0 (a : t) (len : Z) : t :=
  if (len <=? 0) || (size a <=? 0) then a
  else if size a <=? len then []
  else skipn (Z.to_nat len) a.

Definition hexdigit (n : Z) : ascii :=
  ascii_of_nat (Z.to_nat (if n <? 10 then 48 + n else 87 + n)).

(** [toHex()]: two lower-case hexadecimal digits per byte. *)
Fixpoint toHex (a : t) : list ascii :=
  match a with
  | [] => []
  | b :: r =>
      hexdigit (Cxx.uchar b / 16) :: hexdigit (Cxx.uchar b mod 16) :: toHex r
  end.

Definition digitval (c : ascii) : option Z :=
  let n := Z.of_nat (nat_of_ascii c) in
  if (48 <=? n) && (n <=? 57) then Some (n - 48)
  else if (97 <=? n) && (n <=? 102) then Some (n - 87)
  else if (65 <=? n) && (n <=? 70) then Some (n - 55)
  else None.

Fixpoint parse16 (acc : Z) (s : list ascii) : option Z :=
  match s with
  | [] => Some acc
  | c :: r =>
      match digitval c with
      | Some d => parse16 (16 * acc + d) r
      | None => None
      end
  end.

(** [toInt(&ok, 16)] (of [QByteArray] and of [QString] alike) on a string
    of hexadecimal digits: [None] is [ok = false], for the empty string, a
    character that is no digit, or a value that does not fit an [int]. *)
Definition toInt16 (s : list ascii) : option Z :=
  match s with
  | [] => None
  | _ =>
      match parse16 0 s with
      | Some v => if v <=? Cxx.INT_MAX then Some v else None
      | None => None
      end
  end.

(** The value [toInt] returns: 0 when the conversion fails. *)
Definition toInt16_value (s : list ascii) : Z :=
  match toInt16 s with Some v => v | None => 0 end.

End QByteArray.

(** ** Results of calls *)

(** A call returns a value, or its behaviour is undefined in C++. *)
Inductive Exec (A : Type) : Type :=
| Ret (a : A)
| Undefined.

Arguments Ret {A} a.
Arguments Undefined {A}.

Definition bind {A B : Type} (m : Exec A) (k : A -> Exec B) : Exec B :=
  match m with
  | Ret a => k a
  | Undefined => Undefined
  end.

Notation "' pat <- m ;; k" := (bind m (fun pat => k))
  (at level 61, pat pattern, m at next level, right associativity).

(** ** Frames *)

(** [ATCommandFrame::ATCommand]: the command codes the response handler
    names, and one constructor for every other value of the enumeration. *)
Inductive ATCommand : Set :=
| Command_DH | Command_DL | Command_MY | Command_MP | Command_NC
| Command_SH | Command_SL | Command_NI | Command_SE | Command_DE
| Command_CI | Command_TO | Command_NP | Command_DD | Command_CR
| Command_ND
| Command_Unhandled.

(** [ATCommandResponseFrame::CommandStatus]: [Ok], and every other status
    with its code. *)
Inductive CommandStatus : Set :=
| Ok
| Failed (code : Z).

Definition CommandStatus_eqb (a b : CommandStatus) : bool :=
  match a, b with
  | Ok, Ok => true
  | Failed x, Failed y => x =? y
  | _, _ => false
  end.

(** The frame types [XBee::processPacket] switches on (the enumeration of
    [DigiMeshFrame]); [UnknownFrame] is the [default] label. *)
Inductive ApiId : Set :=
| ATCommandResponseFrameId
| ModemStatusFrameId
| TransmitStatusFrameId
| RXIndicatorFrameId
| ExplicitRxIndicatorFrameId
| NodeIdentificationIndicatorFrameId
| RemoteATCommandResponseFrameId
| UnknownFrame.

(** An [ATCommandResponseFrame] object: the packet it was given by its
    constructor or by [setPacket]. *)
Record ATCommandResponseFrame : Set := setPacket { packet : QByteArray.t }.

(** An outbound command ([ATCommandFrame] as a [DigiMeshFrame]): its frame
    id, the two letters of [setCommand] and the text of [setParameter]. *)
Record DigiMeshFrame : Set := mkCommand {
  frameId : Z;
  command : string;
  parameter : string
}.

Definition setFrameId (c : DigiMeshFrame) (id : Z) : DigiMeshFrame :=
  mkCommand id (command c) (parameter c).

Definition setCommand (c : DigiMeshFrame) (code : string) : DigiMeshFrame :=
  mkCommand (frameId c) code (parameter c).

Definition setParameter (c : DigiMeshFrame) (p : string) : DigiMeshFrame :=
  mkCommand (frameId c) (command c) p.

(** A freshly constructed [ATCommandFrame]. *)
Definition ATCommandFrame : DigiMeshFrame := mkCommand 0 "" "".

(** What [xbee.cpp] takes from the headers it includes and from the frame
    classes: the frame-type tags of [digimeshframe.h], the accessors of
    [ATCommandResponseFrame] (functions of the packet the frame holds) and
    the hardware revisions of [global.h]. The driver is verified for every
    choice of them. *)
Class Headers : Type := {
  apiId : Z -> ApiId;
  atCommand : QByteArray.t -> ATCommand;
  commandStatus : QByteArray.t -> CommandStatus;
  data : QByteArray.t -> QByteArray.t;
  XBeeSerie1 : Z;
  XBeeSerie1Pro : Z
}.

(** ** The serial port *)

(** [QSerialPort] as the driver sees it: whether it is open, whether its
    signals are blocked, the commands written to it (latest last), the bytes
    it holds unread, and the bursts that are yet to arrive on the line, one
    per wait. *)
Record QSerialPort : Set := mkPort {
  isOpen : bool;
  signalsBlocked : bool;
  written : list DigiMeshFrame;
  unread : QByteArray.t;
  line : list QByteArray.t
}.

Definition blockSignals (b : bool) (p : QSerialPort) : QSerialPort :=
  mkPort (isOpen p) b (written p) (unread p) (line p).

(** [write(packet); flush()]: a closed port transmits nothing. *)
Definition write (p : QSerialPort) (c : DigiMeshFrame) : QSerialPort :=
  if isOpen p
  then mkPort (isOpen p) (signalsBlocked p) (written p ++ [c]) (unread p) (line p)
  else p.

(** [waitForReadyRead(msecs)]: the next burst of the line, if one comes
    within the timeout (an empty burst is a timeout), joins the unread
    bytes. *)
Definition waitForReadyRead (p : QSerialPort) : QSerialPort :=
  if isOpen p then
    match line p with
    | [] => p
    | burst :: later =>
        mkPort (isOpen p) (signalsBlocked p) (written p) (unread p ++ burst) later
    end
  else p.

(** [waitForBytesWritten(msecs)]: the log of written commands does not
    distinguish pending bytes from sent ones. *)
Definition waitForBytesWritten (p : QSerialPort) : QSerialPort := p.

Definition atEnd (p : QSerialPort) : bool := QByteArray.isEmpty (unread p).

Definition readAll (p : QSerialPort) : QByteArray.t * QSerialPort :=
  (unread p, mkPort (isOpen p) (signalsBlocked p) (written p) [] (line p)).

(** The event loop receives [bytes] from the line into the port (before it
    emits [readyRead]). *)
Definition receive (bytes : QByteArray.t) (p : QSerialPort) : QSerialPort :=
  mkPort (isOpen p) (signalsBlocked p) (written p) (unread p ++ bytes) (line p).

(** ** The driver object *)

Inductive Mode : Set := TransparentMode | StructuredMode.

(** The numeric addressing properties ([m_dh] ... [m_cr]); [m_ni] is text
    and is a member of its own. *)
Inductive Property : Set :=
| DH | DL | MY | MP | NC | SH | SL | SE | DE | CI | TO | NP | DD | CR.

Definition Property_eqb (a b : Property) : bool :=
  match a, b with
  | DH, DH | DL, DL | MY, MY | MP, MP | NC, NC | SH, SH | SL, SL
  | SE, SE | DE, DE | CI, CI | TO, TO | NP, NP | DD, DD | CR, CR => true
  | _, _ => false
  end.

(** The width of each member, declared in [xbee.h]: a member has the type
    of the parameter of its setter ([setDH(const quint32)],
    [setMY(const quint16)], [setSE(const quint8)], ...). *)
Definition width (p : Property) : Z :=
  match p with
  | DH | DL | NC | SH | SL => 32
  | MY | MP | DD => 16
  | SE | DE | CI | TO | NP | CR => 8
  end.

Record XBee : Type := mkXBee {
  m_serial : option QSerialPort;
  xbeeFound : bool;
  m_mode : Mode;
  m_frameIdCounter : Z;
  buffer : QByteArray.t;
  m_addr : Property -> Z;
  m_ni : list ascii
}.

Definition m_dh (x : XBee) := m_addr x DH.
Definition m_dl (x : XBee) := m_addr x DL.
Definition m_my (x : XBee) := m_addr x MY.
Definition m_mp (x : XBee) := m_addr x MP.
Definition m_nc (x : XBee) := m_addr x NC.
Definition m_sh (x : XBee) := m_addr x SH.
Definition m_sl (x : XBee) := m_addr x SL.
Definition m_se (x : XBee) := m_addr x SE.
Definition m_de (x : XBee) := m_addr x DE.
Definition m_ci (x : XBee) := m_addr x CI.
Definition m_to (x : XBee) := m_addr x TO.
Definition m_np (x : XBee) := m_addr x NP.
Definition m_dd (x : XBee) := m_addr x DD.
Definition m_cr (x : XBee) := m_addr x CR.

(** [XBee::XBee(QObject *parent)] *)
Definition XBee_new : XBee :=
  mkXBee None false TransparentMode 1 [] (fun _ => 0) [].

Definition set_serial (x : XBee) (p : QSerialPort) : XBee :=
  mkXBee (Some p) (xbeeFound x) (m_mode x) (m_frameIdCounter x) (buffer x)
         (m_addr x) (m_ni x).

Definition set_frameIdCounter (x : XBee) (c : Z) : XBee :=
  mkXBee (m_serial x) (xbeeFound x) (m_mode x) c (buffer x) (m_addr x) (m_ni x).

Definition set_buffer (x : XBee) (b : QByteArray.t) : XBee :=
  mkXBee (m_serial x) (xbeeFound x) (m_mode x) (m_frameIdCounter x) b
         (m_addr x) (m_ni x).

(** [m_p = v] for the member of property [p], converted to its width. *)
Definition assign (x : XBee) (p : Property) (v : Z) : XBee :=
  mkXBee (m_serial x) (xbeeFound x) (m_mode x) (m_frameIdCounter x) (buffer x)
         (fun q => if Property_eqb q p then Cxx.to_quint (width p) v
                   else m_addr x q)
         (m_ni x).

Definition set_ni (x : XBee) (s : list ascii) : XBee :=
  mkXBee (m_serial x) (xbeeFound x) (m_mode x) (m_frameIdCounter x) (buffer x)
         (m_addr x) s.

(** The signals of the object. Frames are carried as the packet they were
    built from. *)
Inductive Signal : Type :=
| rawDataReceived (b : QByteArray.t)
| Changed (p : Property) (v : Z)
| NIChanged (s : list ascii)
| receivedATCommandResponse (rep : ATCommandResponseFrame)
| receivedModemStatus (pkt : QByteArray.t)
| receivedTransmitStatus (pkt : QByteArray.t)
| receivedRXIndicator (pkt : QByteArray.t)
| receivedRXIndicatorExplicit (pkt : QByteArray.t)
| receivedNodeIdentificationIndicator (pkt : QByteArray.t)
| receivedRemoteCommandResponse (pkt : QByteArray.t).

Definition DHChanged := Changed DH.
Definition DLChanged := Changed DL.
Definition MYChanged := Changed MY.
Definition MPChanged := Changed MP.
Definition NCChanged := Changed NC.
Definition SHChanged := Changed SH.
Definition SLChanged := Changed SL.
Definition SEChanged := Changed SE.
Definition DEChanged := Changed DE.
Definition CIChanged := Changed CI.
Definition TOChanged := Changed TO.
Definition NPChanged := Changed NP.
Definition DDChanged := Changed DD.
Definition CRChanged := Changed CR.

(** ** The operations of [xbee.cpp] *)

Section Driver.

Context {hdr : Headers}.

(** Whether plain [char] is signed on the platform. *)
Variable char_is_signed : bool.

(** The counter after [if(m_frameIdCounter >= 255) m_frameIdCounter = 1;
    else m_frameIdCounter++;]. *)
Definition nextFrameId (c : Z) : Z :=
  if 255 <=? c then 1 else c + 1.

(** [XBee::sendATCommandAsync]: returns the object and the command as the
    call leaves it. The port logs the command object it is asked to write;
    the encoding of [assemblePacket] belongs to the frame classes. *)
Definition sendATCommandAsync (x : XBee) (cmd : DigiMeshFrame)
  : Exec (XBee * DigiMeshFrame) :=
  match m_serial x with
  | None => Undefined
  | Some port =>
      if xbeeFound x && isOpen port then
        let cmd := setFrameId cmd (m_frameIdCounter x) in
        let x := set_frameIdCounter x (nextFrameId (m_frameIdCounter x)) in
        Ret (set_serial x (write port cmd), cmd)
      else
        Ret (x, cmd)
  end.

(** [while(!m_serial->atEnd()) repPacket.append(m_serial->readAll());]:
    [readAll] leaves nothing unread, so the body runs at most once. *)
Definition drain (port : QSerialPort) (repPacket : QByteArray.t)
  : QByteArray.t * QSerialPort :=
  if atEnd port then (repPacket, port)
  else let (bytes, port) := readAll port in (repPacket ++ bytes, port).

(** [XBee::sendATCommandSync] on a command frame: returns the object, the
    command as the call leaves it, and the response ([None] is [NULL]). *)
Definition sendATCommandSync (x : XBee) (cmd : DigiMeshFrame)
  : Exec (XBee * DigiMeshFrame * option ATCommandResponseFrame) :=
  let cmd := setFrameId cmd (m_frameIdCounter x) in
  let x := set_frameIdCounter x (nextFrameId (m_frameIdCounter x)) in
  match m_serial x with
  | None => Undefined
  | Some port =>
      let port := blockSignals true port in
      let port := write port cmd in
      let port := waitForBytesWritten port in
      let port := waitForReadyRead port in
      let (repPacket, port) := drain port [] in
      let port := blockSignals false port in
      let rep :=
        if 0 <? QByteArray.size repPacket then Some (setPacket repPacket)
        else None in
      Ret (set_serial x port, cmd, rep)
  end.

(** [XBee::processATCommandRespone] *)
Definition processATCommandRespone (x : XBee) (rep : ATCommandResponseFrame)
  : XBee * list Signal :=
  let at_ := atCommand (packet rep) in
  let data_ := QByteArray.toHex (data (packet rep)) in
  let dataInt := Cxx.to_quint 32 (QByteArray.toInt16_value data_) in
  let store (p : Property) :=
    let x := assign x p dataInt in
    (x, [Changed p (m_addr x p); receivedATCommandResponse rep]) in
  match at_ with
  | Command_DH => store DH
  | Command_DL => store DL
  | Command_MY => store MY
  | Command_MP => store MP
  | Command_NC => store NC
  | Command_SH => store SH
  | Command_SL => store SL
  | Command_NI =>
      let x := set_ni x data_ in
      (x, [NIChanged (m_ni x); receivedATCommandResponse rep])
  | Command_SE => store SE
  | Command_DE => store DE
  | Command_CI => store CI
  | Command_TO => store TO
  | Command_NP => store NP
  | Command_DD => store DD
  | Command_CR => store CR
  | Command_ND => (x, [receivedATCommandResponse rep])
  | Command_Unhandled => (x, [receivedATCommandResponse rep])
  end.

(** [XBee::processPacket]: [packet.at(3)] is out of range on a packet of
    fewer than four bytes. *)
Definition processPacket (x : XBee) (pkt : QByteArray.t)
  : Exec (XBee * list Signal) :=
  match QByteArray.at_ pkt 3 with
  | None => Undefined
  | Some c =>
      let packetType := Cxx.uchar c in
      match apiId packetType with
      | ATCommandResponseFrameId =>
          Ret (processATCommandRespone x (setPacket pkt))
      | ModemStatusFrameId => Ret (x, [receivedModemStatus pkt])
      | TransmitStatusFrameId => Ret (x, [receivedTransmitStatus pkt])
      | RXIndicatorFrameId => Ret (x, [receivedRXIndicator pkt])
      | ExplicitRxIndicatorFrameId =>
          Ret (x, [receivedRXIndicatorExplicit pkt])
      | NodeIdentificationIndicatorFrameId =>
          Ret (x, [receivedNodeIdentificationIndicator pkt])
      | RemoteATCommandResponseFrameId =>
          Ret (x, [receivedRemoteCommandResponse pkt])
      | UnknownFrame => Ret (x, [])
      end
  end.

Definition startDelimiter : Z := 126.

(** [while(!buffer.isEmpty() && (unsigned char)buffer.at(0) !=
    (unsigned char)startDelimiter) buffer.remove(0, 1);] *)
Fixpoint skipToStart (b : QByteArray.t) : QByteArray.t :=
  match b with
  | [] => []
  | c :: r =>
      if Cxx.uchar c =? Cxx.to_uchar startDelimiter then b else skipToStart r
  end.

(** The packet [readData] hands to [processPacket] in the structured mode
    and the buffer it leaves, from the buffer already aligned on the start
    delimiter; [None] where no packet is handed over. *)
Definition extract (b : QByteArray.t)
  : option QByteArray.t * QByteArray.t :=
  if 2 <? QByteArray.size b then
    match QByteArray.at_ b 2 with
    | None => (None, b)
    | Some c =>
        let length := Cxx.to_unsigned (Cxx.char_value char_is_signed c + 4) in
        if Cxx.to_uchar length <=? Cxx.to_uchar (QByteArray.size b) then
          (Some (QByteArray.left b (Cxx.to_int length)),
           QByteArray.remove0 b (Cxx.to_int length))
        else (None, b)
    end
  else (None, b).

(** [XBee::readData], the slot of the port's [readyRead]. *)
Definition readData (x : XBee) : Exec (XBee * list Signal) :=
  match m_serial x with
  | None => Undefined
  | Some port =>
      let (data_, port) := readAll port in
      let x := set_serial x port in
      let x := set_buffer x (buffer x ++ data_) in
      match m_mode x with
      | TransparentMode =>
          if QByteArray.endsWith (buffer x) Byte.x0d then
            Ret (set_buffer x [], [rawDataReceived (buffer x)])
          else Ret (x, [])
      | StructuredMode =>
          let x := set_buffer x (skipToStart (buffer x)) in
          match extract (buffer x) with
          | (Some pkt, rest) =>
              '(x, signals) <- processPacket x pkt ;;
              Ret (set_buffer x rest, signals)
          | (None, _) => Ret (x, [])
          end
      end
  end.

(** A data delivery: the bytes reach the port, which emits [readyRead]. *)
Definition deliver (bytes : QByteArray.t) (x : XBee)
  : Exec (XBee * list Signal) :=
  match m_serial x with
  | None => Undefined
  | Some port => readData (set_serial x (receive bytes port))
  end.

(** [rep->data().toHex().toInt(&ok, 16)]: [None] is [ok = false]. *)
Definition dataToInt (rep : ATCommandResponseFrame) : option Z :=
  QByteArray.toInt16 (QByteArray.toHex (data (packet rep))).

(** [XBee::startupCheck], the block under [// Check AP mode]: returns
    [bRet] as the block leaves it. *)
Definition startupCheck_AP (x : XBee) : Exec (XBee * bool) :=
  let at_ := setCommand ATCommandFrame "AP" in
  '(x, at_, rep) <- sendATCommandSync x at_ ;;
  match rep with
  | Some rep =>
      match commandStatus (packet rep) with
      | Ok =>
          match dataToInt rep with
          | Some apmode =>
              if negb (apmode =? 1) then
                let at_ := setParameter at_ "1" in
                '(x, at_, rep) <- sendATCommandSync x at_ ;;
                match rep with
                | Some rep =>
                    match commandStatus (packet rep) with
                    | Ok => Ret (x, true)
                    | Failed _ => Ret (x, false)
                    end
                | None => Ret (x, false)
                end
              else Ret (x, true)
          | None => Ret (x, false)
          end
      | Failed _ => Ret (x, false)
      end
  | None => Ret (x, false)
  end.

(** [XBee::startupCheck], the block under [// Check HardWare Rev], entered
    with [bRet] as the first block left it. The condition
    [hv == QtXBee::XBeeSerie1 || QtXBee::XBeeSerie1Pro] converts the
    constant [XBeeSerie1Pro] to [bool]. *)
Definition startupCheck_HV (x : XBee) (bRet : bool) : Exec (XBee * bool) :=
  let hv := setCommand ATCommandFrame "HV" in
  '(x, _, rep) <- sendATCommandSync x hv ;;
  match rep with
  | Some rep =>
      match commandStatus (packet rep) with
      | Ok =>
          match dataToInt rep with
          | Some hv =>
              if (hv =? XBeeSerie1) || negb (XBeeSerie1Pro =? 0)
              then Ret (x, bRet && true)
              else Ret (x, false)
          | None => Ret (x, false)
          end
      | Failed _ => Ret (x, false)
      end
  | None => Ret (x, false)
  end.

(** [XBee::startupCheck] *)
Definition startupCheck (x : XBee) : Exec (XBee * bool) :=
  if xbeeFound x then
    '(x, bRet) <- startupCheck_AP x ;;
    startupCheck_HV x bRet
  else Ret (x, false).

End Driver.

(** ** An instance of the headers, for the examples

    The layout of an AT command response of the XBee API
    ([7E lenHigh lenLow 88 frameId c1 c2 status value... checksum]), the
    frame-type tags of the XBee API, and two sample hardware revisions. *)
Module Sample.

Definition apiId (t : Z) : ApiId :=
  if t =? 136 then ATCommandResponseFrameId
  else if t =? 138 then ModemStatusFrameId
  else if t =? 139 then TransmitStatusFrameId
  else if t =? 144 then RXIndicatorFrameId
  else if t =? 145 then ExplicitRxIndicatorFrameId
  else if t =? 149 then NodeIdentificationIndicatorFrameId
  else if t =? 151 then RemoteATCommandResponseFrameId
  else UnknownFrame.

Definition letters (a b : Z) : ATCommand :=
  if (a =? 68) && (b =? 72) then Command_DH
  else if (a =? 68) && (b =? 76) then Command_DL
  else if (a =? 77) && (b =? 89) then Command_MY
  else if (a =? 77) && (b =? 80) then Command_MP
  else if (a =? 78) && (b =? 67) then Command_NC
  else if (a =? 83) && (b =? 72) then Command_SH
  else if (a =? 83) && (b =? 76) then Command_SL
  else if (a =? 78) && (b =? 73) then Command_NI
  else if (a =? 83) && (b =? 69) then Command_SE
  else if (a =? 68) && (b =? 69) then Command_DE
  else if (a =? 67) && (b =? 73) then Command_CI
  else if (a =? 84) && (b =? 79) then Command_TO
  else if (a =? 78) && (b =? 80) then Command_NP
  else if (a =? 68) && (b =? 68) then Command_DD
  else if (a =? 67) && (b =? 82) then Command_CR
  else if (a =? 78) && (b =? 68) then Command_ND
  else Command_Unhandled.

Definition atCommand (p : QByteArray.t) : ATCommand :=
  match nth_error p 5, nth_error p 6 with
  | Some a, Some b => letters (Cxx.uchar a) (Cxx.uchar b)
  | _, _ => Command_Unhandled
  end.

Definition commandStatus (p : QByteArray.t) : CommandStatus :=
  match nth_error p 7 with
  | Some s => if Cxx.uchar s =? 0 then Ok else Failed (Cxx.uchar s)
  | None => Failed (-1)
  end.

Definition data (p : QByteArray.t) : QByteArray.t :=
  removelast (skipn 8 p).

Definition headers : Headers :=
  Build_Headers apiId atCommand commandStatus data 23 24.

End Sample.

(** ** Vocabulary of the statements *)

(** The buffer as [readData] sees it after a delivery of [bytes]: what it
    held, what the port held unread, and the bytes delivered. *)
Definition accumulated (x : XBee) (port : QSerialPort) (bytes : QByteArray.t)
  : QByteArray.t :=
  buffer x ++ unread port ++ bytes.

(** The bytes at hand when the wait of a synchronous send ends. *)
Definition available (port : QSerialPort) : QByteArray.t :=
  unread (waitForReadyRead port).

(** The members that hold addressing properties agree in [x] and [y]. *)
Definition same_properties (x y : XBee) : Prop :=
  (forall p, m_addr y p = m_addr x p) /\ m_ni y = m_ni x.

(** The responses carried by the generic [receivedATCommandResponse]
    signals of [l], in order. *)
Fixpoint responses (l : list Signal) : list ATCommandResponseFrame :=
  match l with
  | [] => []
  | receivedATCommandResponse r :: l' => r :: responses l'
  | _ :: l' => responses l'
  end.

(** The numeric property a command code names. *)
Definition property_of (c : ATCommand) : option Property :=
  match c with
  | Command_DH => Some DH | Command_DL => Some DL | Command_MY => Some MY
  | Command_MP => Some MP | Command_NC => Some NC | Command_SH => Some SH
  | Command_SL => Some SL | Command_SE => Some SE | Command_DE => Some DE
  | Command_CI => Some CI | Command_TO => Some TO | Command_NP => Some NP
  | Command_DD => Some DD | Command_CR => Some CR
  | Command_NI | Command_ND | Command_Unhandled => None
  end.

(** The value [dataInt] of [processATCommandRespone]. *)
Definition dataInt {hdr : Headers} (rep : ATCommandResponseFrame) : Z :=
  Cxx.to_quint 32
    (QByteArray.toInt16_value (QByteArray.toHex (data (packet rep)))).

(** A packet that [processPacket] dispatches as an AT command response. *)
Definition isCommandResponse {hdr : Headers} (pkt : QByteArray.t) : Prop :=
  exists c, QByteArray.at_ pkt 3 = Some c
            /\ apiId (Cxx.uchar c) = ATCommandResponseFrameId.

(** Whether a synchronous send returned a response with the status OK:
    [rep && rep->commandStatus() == ATCommandResponseFrame::Ok]. *)
Definition succeeded {hdr : Headers} (rep : option ATCommandResponseFrame)
  : bool :=
  match rep with
  | Some r => CommandStatus_eqb (commandStatus (packet r)) Ok
  | None => false
  end.

(** A frame of the structured mode with the declared length [L]: the start
    delimiter, two length bytes of which the second holds [L], and [L + 1]
    more bytes (type, payload and checksum), [L + 4] bytes in all. *)
Definition wellFormed (L : Z) (f : QByteArray.t) : Prop :=
  exists hi lo rest,
    f = Byte.x7e :: hi :: lo :: rest
    /\ Cxx.uchar lo = L
    /\ QByteArray.size f = L + 4.

(** Bytes that precede a start delimiter: none of them is [0x7E]. *)
Definition garbage (g : QByteArray.t) : Prop :=
  Forall (fun b => b <> Byte.x7e) g.

(** The big-endian value of a byte string. *)
Definition bigEndian (a : QByteArray.t) : Z :=
  fold_left (fun v b => 256 * v + Cxx.uchar b) a 0.

(** [n] asynchronous sends of [cmd] in a row (as
    [XBee::loadAddressingProperties] sends one command object fifteen times):
    returns the object and the frame ids the command left the calls with. *)
Fixpoint sendMany (n : nat) (x : XBee) (cmd : DigiMeshFrame)
  : Exec (XBee * list Z) :=
  match n with
  | O => Ret (x, [])
  | S n =>
      '(x, cmd) <- sendATCommandAsync x cmd ;;
      '(x, ids) <- sendMany n x cmd ;;
      Ret (x, frameId cmd :: ids)
  end.

(** The transport is usable: the condition [xbeeFound && m_serial->isOpen()]
    of the asynchronous send. *)
Definition transport_ready (x : XBee) : bool :=
  match m_serial x with
  | Some port => xbeeFound x && isOpen port
  | None => false
  end.

(** ** Sample objects *)

Module Samples.

(** An open port with nothing on the line. *)
Definition port : QSerialPort := mkPort true false [] [] [].

Definition closed_port : QSerialPort := mkPort false false [] [] [].

(** The object after construction, with its port set and found. *)
Definition connected (m : Mode) : XBee :=
  mkXBee (Some port) true m 1 [] (fun _ => 0) [].

(** The object with a port that is not open. *)
Definition disconnected : XBee :=
  mkXBee (Some closed_port) false TransparentMode 1 [] (fun _ => 0) [].

(** ["OK"] and a carriage return. *)
Definition ok_line : QByteArray.t := [Byte.x4f; Byte.x4b; Byte.x0d].

(** An open port on which the bursts [l] will arrive. *)
Definition port_with (l : list QByteArray.t) : QSerialPort :=
  mkPort true false [] [] l.

Definition connected_with (l : list QByteArray.t) : XBee :=
  mkXBee (Some (port_with l)) true StructuredMode 1 [] (fun _ => 0) [].

(** The AT command response [DH], status 0 (OK), value [00 00 AB CD]. *)
Definition dh_ok : QByteArray.t :=
  [Byte.x7e; Byte.x00; Byte.x09; Byte.x88; Byte.x01; Byte.x44; Byte.x48;
   Byte.x00; Byte.x00; Byte.x00; Byte.xab; Byte.xcd; Byte.x72].

(** The AT command response [DH], status 1 (ERROR), value [00 00 00 12]. *)
Definition dh_failed : QByteArray.t :=
  [Byte.x7e; Byte.x00; Byte.x09; Byte.x88; Byte.x02; Byte.x44; Byte.x48;
   Byte.x01; Byte.x00; Byte.x00; Byte.x00; Byte.x12; Byte.xd6].

(** The AT command response [DH], status 0 (OK), value [FF FF FF FF],
    which does not fit an [int]. *)
Definition dh_overflow : QByteArray.t :=
  [Byte.x7e; Byte.x00; Byte.x09; Byte.x88; Byte.x03; Byte.x44; Byte.x48;
   Byte.x00; Byte.xff; Byte.xff; Byte.xff; Byte.xff; Byte.xec].

(** The AT command response [DH], status 0 (OK), no value (the reply to a
    command that sets [DH]). *)
Definition dh_empty : QByteArray.t :=
  [Byte.x7e; Byte.x00; Byte.x05; Byte.x88; Byte.x04; Byte.x44; Byte.x48;
   Byte.x00; Byte.xe7].

(** The object after the delivery of [dh_ok] in the structured mode:
    [m_dh] is [0xABCD]. *)
Definition with_dh : XBee :=
  mkXBee (Some port) true StructuredMode 1 []
         (fun p => match p with DH => 43981 | _ => 0 end) [].

(** The reply to the query [AP]: status OK, value 1. *)
Definition ap_is_1 : QByteArray.t :=
  [Byte.x7e; Byte.x00; Byte.x06; Byte.x88; Byte.x01; Byte.x41; Byte.x50;
   Byte.x00; Byte.x01; Byte.xe4].

(** The reply to the query [AP]: status OK, value 2. *)
Definition ap_is_2 : QByteArray.t :=
  [Byte.x7e; Byte.x00; Byte.x06; Byte.x88; Byte.x01; Byte.x41; Byte.x50;
   Byte.x00; Byte.x02; Byte.xe3].

(** The reply to the command [AP 1]: status OK, no value. *)
Definition ap_set_ok : QByteArray.t :=
  [Byte.x7e; Byte.x00; Byte.x05; Byte.x88; Byte.x02; Byte.x41; Byte.x50;
   Byte.x00; Byte.xe4].

(** The reply to the query [HV]: status OK, value [0x1234], which is
    neither of the revisions of [Sample.headers]. *)
Definition hv_is_1234 : QByteArray.t :=
  [Byte.x7e; Byte.x00; Byte.x07; Byte.x88; Byte.x02; Byte.x48; Byte.x56;
   Byte.x00; Byte.x12; Byte.x34; Byte.x91].

(** A receive indicator of declared length 128: 132 bytes. *)
Definition rx_128 : QByteArray.t :=
  [Byte.x7e; Byte.x00; Byte.x80; Byte.x90] ++ repeat Byte.x00 127
  ++ [Byte.x6f].

(** A modem status frame: 6 bytes, declared length 2. *)
Definition modem_status : QByteArray.t :=
  [Byte.x7e; Byte.x00; Byte.x02; Byte.x8a; Byte.x06; Byte.x6f].

(** 43 modem status frames in a row: 258 bytes. *)
Definition backlog : QByteArray.t := List.concat (repeat modem_status 43).

(** The example of the specification: two bytes of garbage, then a frame
    of six bytes. *)
Definition spec_frame : QByteArray.t :=
  [Byte.x7e; Byte.x00; Byte.x02; Byte.x90; Byte.xab; Byte.x39].

Definition spec_garbage : QByteArray.t := [Byte.x01; Byte.x02].

End Samples.


(** * The rest of the driver *)

From Stdlib Require Import DecimalString.


(** ** More of [QByteArray] *)

Module QByteArrayMore.

(** [mid(int pos, int len)] for [0 <= pos]: the bytes from [pos] on, [len]
    of them, or all of them when [len] is negative or reaches past the
    end. *)
Definition mid (a : QByteArray.t) (pos len : Z) : QByteArray.t :=
  if QByteArray.size a <=? pos then []
  else if (len <? 0) || (QByteArray.size a <? pos + len)
       then skipn (Z.to_nat pos) a
       else firstn (Z.to_nat len) (skipn (Z.to_nat pos) a).

(** [QByteArray::number(n)] of an unsigned value: its decimal digits. *)
Definition number (n : Z) : string :=
  NilZero.string_of_uint (N.to_uint (Z.to_N n)).

End QByteArrayMore.

(** ** The port, opened *)

(** [QSerialPort::open(QIODevice::ReadWrite)]: fails on a port that is open
    already; otherwise opens the port when the system grants the device. *)
Definition port_open (granted : bool) (p : QSerialPort) : bool * QSerialPort :=
  if isOpen p then (false, p)
  else if granted
       then (true, mkPort true (signalsBlocked p) (written p) (unread p) (line p))
       else (false, p).

Definition set_xbeeFound (x : XBee) (b : bool) : XBee :=
  mkXBee (m_serial x) b (m_mode x) (m_frameIdCounter x) (buffer x)
         (m_addr x) (m_ni x).

(** ** The other operations of [xbee.cpp] *)

(** The two letters of the command code of a numeric property
    ([ATCommandFrame::Command_DH] ...). *)
Definition letters_of (p : Property) : string :=
  match p with
  | DH => "DH" | DL => "DL" | MY => "MY" | MP => "MP" | NC => "NC"
  | SH => "SH" | SL => "SL" | SE => "SE" | DE => "DE" | CI => "CI"
  | TO => "TO" | NP => "NP" | DD => "DD" | CR => "CR"
  end.

(** The codes [XBee::loadAddressingProperties] queries, in its order. *)
Definition addressingCodes : list string :=
  ["DH"; "DL"; "MY"; "MP"; "NC"; "SH"; "SL"; "NI"; "SE"; "DE"; "CI"; "TO";
   "NP"; "DD"; "CR"]%string.

(** [at.setCommand(code); sendATCommandAsync(&at);] for each code of
    [codes], on the one command object [at_]. *)
Fixpoint queryEach (codes : list string) (x : XBee) (at_ : DigiMeshFrame)
  : Exec (XBee * DigiMeshFrame) :=
  match codes with
  | [] => Ret (x, at_)
  | code :: later =>
      '(x, at_) <- sendATCommandAsync x (setCommand at_ code) ;;
      queryEach later x at_
  end.

(** [XBee::loadAddressingProperties] *)
Definition loadAddressingProperties (x : XBee) : Exec XBee :=
  '(x, _) <- queryEach addressingCodes x ATCommandFrame ;;
  Ret x.

(** The setters of the numeric properties ([XBee::setDH] ... [XBee::setCR]):
    the value, of the width of the setter's parameter, is sent as its
    decimal text; the result is [true]. *)
Definition setNumeric (p : Property) (x : XBee) (v : Z) : Exec (XBee * bool) :=
  let at_ := setCommand ATCommandFrame (letters_of p) in
  let at_ := setParameter at_ (QByteArrayMore.number (Cxx.to_quint (width p) v)) in
  '(x, _) <- sendATCommandAsync x at_ ;;
  Ret (x, true).

Definition setDH := setNumeric DH.
Definition setDL := setNumeric DL.
Definition setMP := setNumeric MP.
Definition setNC := setNumeric NC.
Definition setSH := setNumeric SH.
Definition setSL := setNumeric SL.
Definition setSE := setNumeric SE.
Definition setDE := setNumeric DE.
Definition setCI := setNumeric CI.
Definition setTO := setNumeric TO.
Definition setNP := setNumeric NP.
Definition setDD := setNumeric DD.
Definition setCR := setNumeric CR.

(** [XBee::setNI] *)
Definition setNI (x : XBee) (ni : string) : Exec (XBee * bool) :=
  let at_ := setCommand ATCommandFrame "NI" in
  let at_ := setParameter at_ ni in
  '(x, _) <- sendATCommandAsync x at_ ;;
  Ret (x, true).

(** [XBee::sendATCommandSync(const QByteArray &data)]: the first two bytes
    are the command, the bytes after them the parameter. *)
Definition sendATCommandSync_data (x : XBee) (data_ : QByteArray.t)
  : Exec (XBee * option ATCommandResponseFrame) :=
  if 2 <=? QByteArray.size data_ then
    let at_ :=
      setCommand ATCommandFrame
                 (string_of_list_byte (QByteArrayMore.mid data_ 0 2)) in
    let at_ :=
      if 2 <? QByteArray.size data_
      then setParameter at_
             (string_of_list_byte
                (QByteArrayMore.mid data_ 2 (QByteArray.size data_ - 2)))
      else at_ in
    '(x, _, rep) <- sendATCommandSync x at_ ;;
    Ret (x, rep)
  else Ret (x, None).

Section Connection.

Context {hdr : Headers}.

(** [XBee::initSerialConnection]; [granted] is whether the system lets the
    device be opened. *)
Definition initSerialConnection (granted : bool) (x : XBee)
  : Exec (XBee * bool) :=
  match m_serial x with
  | None => Ret (x, false)
  | Some port =>
      let (opened, port) := port_open granted port in
      let x := set_serial x port in
      if opened then
        if isOpen port then
          let x := set_xbeeFound x true in
          '(x, _) <- startupCheck x ;;
          Ret (x, true)
        else Ret (x, false)
      else Ret (x, false)
  end.

End Connection.

(** ** More vocabulary *)

(** The members of the object that no dispatch touches. *)
Definition same_session (x y : XBee) : Prop :=
  m_serial y = m_serial x /\ xbeeFound y = xbeeFound x
  /\ m_mode y = m_mode x /\ m_frameIdCounter y = m_frameIdCounter x
  /\ buffer y = buffer x.

(** The port after [readAll], as it was but with nothing unread. *)
Definition drained (p : QSerialPort) : QSerialPort :=
  mkPort (isOpen p) (signalsBlocked p) (written p) [] (line p).

(** The object as a delivery in the structured mode leaves it before it
    looks for a packet: the port read, the buffer aligned on the start
    delimiter. *)
Definition aligned (x : XBee) (port : QSerialPort) (bytes : QByteArray.t)
  : XBee :=
  set_buffer (set_serial x (drained port))
             (skipToStart (accumulated x port bytes)).

(** The frame ids of the commands in a log. *)
Definition ids (log : list DigiMeshFrame) : list Z := map frameId log.

(** The counter after [n] sends. *)
Definition frameIdAfter (n : nat) (c : Z) : Z := Nat.iter n nextFrameId c.

(** The calls a user of the object, or the port, can make. *)
Inductive Call : Type :=
| CallSendAsync (cmd : DigiMeshFrame)
| CallSendSync (cmd : DigiMeshFrame)
| CallSendSyncData (data_ : QByteArray.t)
| CallLoadAddressingProperties
| CallSetNumeric (p : Property) (v : Z)
| CallSetNI (ni : string)
| CallReadyRead (bytes : QByteArray.t)
| CallStartupCheck
| CallInitSerialConnection (granted : bool).

Section Calls.

Context {hdr : Headers}.
Variable char_is_signed : bool.

Definition call (c : Call) (x : XBee) : Exec XBee :=
  match c with
  | CallSendAsync cmd => '(x, _) <- sendATCommandAsync x cmd ;; Ret x
  | CallSendSync cmd => '(x, _, _) <- sendATCommandSync x cmd ;; Ret x
  | CallSendSyncData d => '(x, _) <- sendATCommandSync_data x d ;; Ret x
  | CallLoadAddressingProperties => loadAddressingProperties x
  | CallSetNumeric p v => '(x, _) <- setNumeric p x v ;; Ret x
  | CallSetNI ni => '(x, _) <- setNI x ni ;; Ret x
  | CallReadyRead bytes => '(x, _) <- deliver char_is_signed bytes x ;; Ret x
  | CallStartupCheck => '(x, _) <- startupCheck x ;; Ret x
  | CallInitSerialConnection g => '(x, _) <- initSerialConnection g x ;; Ret x
  end.

Fixpoint calls (l : list Call) (x : XBee) : Exec XBee :=
  match l with
  | [] => Ret x
  | c :: later => 'x <- call c x ;; calls later x
  end.

End Calls.


(** The object [x'] and its port [port'] are [x] and [port] after the
    commands of [log] were sent synchronously, and nothing else happened:
    written if the port is open, with the frame ids the counter runs
    through; the buffer, the stored properties, the mode and the found flag
    are as they were. *)
Definition sent_by (x x' : XBee) (port port' : QSerialPort)
           (log : list DigiMeshFrame) : Prop :=
  m_serial x = Some port /\ m_serial x' = Some port'
  /\ isOpen port' = isOpen port
  /\ written port' = (if isOpen port then written port ++ log else written port)
  /\ ids log
     = map (fun i => frameIdAfter i (m_frameIdCounter x))
           (seq 0 (List.length log))
  /\ m_frameIdCounter x' = frameIdAfter (List.length log) (m_frameIdCounter x)
  /\ xbeeFound x' = xbeeFound x /\ m_mode x' = m_mode x
  /\ buffer x' = buffer x /\ same_properties x x'.

(** The object keeps a port and a frame id counter in [1,255]. *)
Definition well_kept (x : XBee) : Prop :=
  m_serial x <> None /\ 1 <= m_frameIdCounter x <= 255.

(** * Properties *)

(** ** Bytes and byte arrays *)

Lemma uchar_range (b : byte) : 0 <= Cxx.uchar b < 256.
Proof.
  unfold Cxx.uchar. pose proof (Byte.to_N_bounded b). lia.
Qed.

Lemma uchar_inj (a b : byte) : Cxx.uchar a = Cxx.uchar b -> a = b.
Proof.
  unfold Cxx.uchar. intros E. apply N2Z.inj in E.
  pose proof (Byte.of_to_N a) as Ha. pose proof (Byte.of_to_N b) as Hb.
  rewrite E in Ha. congruence.
Qed.

Lemma byte_eqb_eq (a b : byte) : Byte.eqb a b = true <-> a = b.
Proof.
  split.
  - apply Byte.byte_dec_bl.
  - apply Byte.byte_dec_lb.
Qed.

Lemma endsWith_snoc (a : QByteArray.t) (l c : byte) :
  QByteArray.endsWith (a ++ [l]) c = Byte.eqb l c.
Proof.
  unfold QByteArray.endsWith. rewrite rev_app_distr. reflexivity.
Qed.

Lemma endsWith_true (a : QByteArray.t) (c : byte) :
  QByteArray.endsWith a c = true <-> exists front, a = front ++ [c].
Proof.
  split.
  - unfold QByteArray.endsWith. destruct (rev a) as [| l r] eqn:E.
    + discriminate.
    + intros H. apply byte_eqb_eq in H. subst l. exists (rev r).
      rewrite <- (rev_involutive a), E. reflexivity.
  - intros [front ->]. rewrite endsWith_snoc. now apply byte_eqb_eq.
Qed.

Lemma size_app (a b : QByteArray.t) :
  QByteArray.size (a ++ b) = QByteArray.size a + QByteArray.size b.
Proof. unfold QByteArray.size. rewrite length_app. lia. Qed.

Lemma size_nonneg (a : QByteArray.t) : 0 <= QByteArray.size a.
Proof. unfold QByteArray.size. lia. Qed.

(** ** Transparent mode *)

Section TransparentMode.

Context {hdr : Headers}.
Variable char_is_signed : bool.

Lemma deliver_transparent (x : XBee) (port : QSerialPort)
      (bytes : QByteArray.t) :
  m_serial x = Some port ->
  m_mode x = TransparentMode ->
  exists x',
    deliver char_is_signed bytes x
    = Ret (x', if QByteArray.endsWith (accumulated x port bytes) Byte.x0d
               then [rawDataReceived (accumulated x port bytes)] else [])
    /\ buffer x'
       = (if QByteArray.endsWith (accumulated x port bytes) Byte.x0d
          then [] else accumulated x port bytes).
Proof.
  intros Hs Hm. unfold deliver, readData, accumulated. rewrite Hs.
  cbn. rewrite Hm.
  destruct (QByteArray.endsWith _ _); eexists; split; reflexivity.
Qed.

(** C9. In transparent mode, when the buffer accumulated by a delivery
    ends with the byte 13, the whole buffer, terminator included, is
    emitted as one [rawDataReceived] and the buffer is cleared; when it
    does not end with 13, nothing is emitted and the buffer is kept. *)
Theorem C9_transparent_terminator (x : XBee) (port : QSerialPort)
        (bytes : QByteArray.t) :
  m_serial x = Some port ->
  m_mode x = TransparentMode ->
  exists x' signals,
    deliver char_is_signed bytes x = Ret (x', signals)
    /\ ((exists front, accumulated x port bytes = front ++ [Byte.x0d]) ->
        signals = [rawDataReceived (accumulated x port bytes)]
        /\ buffer x' = [])
    /\ ((forall front, accumulated x port bytes <> front ++ [Byte.x0d]) ->
        signals = [] /\ buffer x' = accumulated x port bytes).
Proof.
  intros Hs Hm.
  destruct (deliver_transparent x port bytes Hs Hm) as [x' [E B]].
  destruct (QByteArray.endsWith (accumulated x port bytes) Byte.x0d) eqn:W.
  - exists x', [rawDataReceived (accumulated x port bytes)].
    split; [exact E |]. split.
    + intros _. now split.
    + intros N. apply endsWith_true in W. destruct W as [f W].
      now destruct (N f).
  - exists x', []. split; [exact E |]. split.
    + intros W'. apply endsWith_true in W'. congruence.
    + intros _. now split.
Qed.

End TransparentMode.

(** The line of the specification: ["OK"] and the byte 13. *)
Lemma C9_transparent_terminator_witness :
  exists x' signals,
    deliver (hdr := Sample.headers) true Samples.ok_line
            (Samples.connected TransparentMode) = Ret (x', signals)
    /\ signals = [rawDataReceived Samples.ok_line] /\ buffer x' = [].
Proof.
  destruct (C9_transparent_terminator (hdr := Sample.headers) true
              (Samples.connected TransparentMode) Samples.port
              Samples.ok_line eq_refl eq_refl)
    as [x' [signals [E [Yes _]]]].
  exists x', signals. split; [exact E |].
  apply Yes. exists [Byte.x4f; Byte.x4b]. reflexivity.
Defined.

(** ** Synchronous sends *)

Section SynchronousSend.

Context {hdr : Headers}.

Lemma drain_bytes (port : QSerialPort) :
  fst (drain port []) = unread port.
Proof.
  unfold drain, atEnd. destruct (unread port) eqn:E; cbn; now rewrite ?E.
Qed.

(** The loop of the synchronous send exits: nothing is unread after one
    pass. *)
Lemma drain_atEnd (port : QSerialPort) (acc : QByteArray.t) :
  atEnd (snd (drain port acc)) = true.
Proof.
  unfold drain. destruct (atEnd port) eqn:E; [exact E | reflexivity].
Qed.

Lemma available_write (port : QSerialPort) (b : bool) (cmd : DigiMeshFrame) :
  available (waitForBytesWritten (write (blockSignals b port) cmd))
  = available port.
Proof.
  unfold available, waitForBytesWritten, waitForReadyRead, write,
    blockSignals.
  destruct port as [o s w u l]; cbn. destruct o; cbn; [| reflexivity].
  destruct l; reflexivity.
Qed.

(** The response of a synchronous send, from the bytes at hand when the
    wait ends. *)
Lemma sendATCommandSync_response (x : XBee) (port : QSerialPort)
      (cmd : DigiMeshFrame) :
  m_serial x = Some port ->
  exists x',
    sendATCommandSync x cmd
    = Ret (x', setFrameId cmd (m_frameIdCounter x),
           if 0 <? QByteArray.size (available port)
           then Some (setPacket (available port)) else None)
    /\ m_frameIdCounter x' = nextFrameId (m_frameIdCounter x)
    /\ xbeeFound x' = xbeeFound x
    /\ exists port',
        m_serial x' = Some port'
        /\ isOpen port' = isOpen port
        /\ written port'
           = (if isOpen port
              then written port ++ [setFrameId cmd (m_frameIdCounter x)]
              else written port)
        /\ line port' = (if isOpen port then tl (line port) else line port).
Proof.
  intros Hs. unfold sendATCommandSync. cbn. rewrite Hs.
  set (c := setFrameId cmd (m_frameIdCounter x)).
  rewrite <- (available_write port true c).
  unfold available.
  set (p := waitForReadyRead _).
  pose proof (drain_bytes p) as D.
  assert (W : isOpen (snd (drain p [])) = isOpen port
              /\ written (snd (drain p []))
                 = (if isOpen port then written port ++ [c]
                    else written port)
              /\ line (snd (drain p []))
                 = (if isOpen port then tl (line port) else line port)).
  { subst p. unfold drain, atEnd, readAll, waitForReadyRead,
      waitForBytesWritten, write, blockSignals.
    destruct port as [o s w u l]; cbn. destruct o; cbn.
    - destruct l; cbn; destruct u; cbn;
        try (destruct t; cbn); repeat split; reflexivity.
    - destruct u; cbn; repeat split; reflexivity. }
  destruct (drain p []) as [repPacket p'] eqn:E. cbn in D, W. subst repPacket.
  eexists. split; [reflexivity |]. cbn. repeat split.
  eexists. split; [reflexivity |]. cbn. exact W.
Qed.

(** C7. A synchronous send for which no byte is at hand when the read
    wait ends returns the absent response and decodes nothing; when bytes
    are at hand, the response it returns is a frame holding exactly those
    bytes. *)
Theorem C7_sync_absent_or_wrapped (x : XBee) (port : QSerialPort)
        (cmd : DigiMeshFrame) :
  m_serial x = Some port ->
  exists x' cmd' rep,
    sendATCommandSync x cmd = Ret (x', cmd', rep)
    /\ (available port = [] -> rep = None)
    /\ (available port <> [] -> rep = Some (setPacket (available port))).
Proof.
  intros Hs.
  destruct (sendATCommandSync_response x port cmd Hs) as [x' [E _]].
  do 3 eexists. split; [exact E |].
  destruct (available port) as [| b r]; cbn.
  - split; [reflexivity | congruence].
  - split; [discriminate | intros _].
    destruct (0 <? _) eqn:L; [reflexivity |].
    apply Z.ltb_ge in L. unfold QByteArray.size in L.
    cbn [List.length] in L. lia.
Qed.

End SynchronousSend.

Lemma C7_sync_absent_or_wrapped_witness :
  exists x' cmd' rep,
    sendATCommandSync (Samples.connected_with []) ATCommandFrame
    = Ret (x', cmd', rep)
    /\ rep = None.
Proof.
  destruct (C7_sync_absent_or_wrapped (Samples.connected_with [])
              (Samples.port_with []) ATCommandFrame eq_refl)
    as [x' [cmd' [rep [E [Absent _]]]]].
  exists x', cmd', rep. split; [exact E | apply Absent; reflexivity].
Defined.

(** ** The frame id counter *)

Lemma nextFrameId_range (c : Z) :
  1 <= c <= 255 -> 1 <= nextFrameId c <= 255.
Proof.
  unfold nextFrameId. destruct (255 <=? c) eqn:E; [lia |].
  apply Z.leb_gt in E. lia.
Qed.

Lemma sendATCommandAsync_ready (x : XBee) (cmd : DigiMeshFrame) :
  transport_ready x = true ->
  exists x',
    sendATCommandAsync x cmd = Ret (x', setFrameId cmd (m_frameIdCounter x))
    /\ m_frameIdCounter x' = nextFrameId (m_frameIdCounter x)
    /\ transport_ready x' = true.
Proof.
  unfold transport_ready, sendATCommandAsync.
  destruct (m_serial x) as [port |]; [| discriminate].
  intros R. rewrite R. eexists. split; [reflexivity |]. cbn.
  split; [reflexivity |].
  apply andb_prop in R. destruct R as [F O]. rewrite F. cbn.
  unfold write. now rewrite !O.
Qed.

Lemma sendATCommandAsync_dropped (x : XBee) (port : QSerialPort)
      (cmd : DigiMeshFrame) :
  m_serial x = Some port ->
  transport_ready x = false ->
  sendATCommandAsync x cmd = Ret (x, cmd).
Proof.
  unfold transport_ready, sendATCommandAsync. intros ->. now intros ->.
Qed.

(** The ids [c], [c+1], ... of [n] sends that do not reach 255. *)
Lemma sendMany_below (n : nat) :
  forall (x : XBee) (cmd : DigiMeshFrame),
    transport_ready x = true ->
    1 <= m_frameIdCounter x ->
    m_frameIdCounter x + Z.of_nat n <= 255 ->
    exists x',
      sendMany n x cmd
      = Ret (x', map Z.of_nat (seq (Z.to_nat (m_frameIdCounter x)) n))
      /\ m_frameIdCounter x' = m_frameIdCounter x + Z.of_nat n
      /\ transport_ready x' = true.
Proof.
  induction n as [| n IH]; intros x cmd R L U.
  - exists x. cbn. repeat split; trivial. lia.
  - destruct (sendATCommandAsync_ready x cmd R) as [x1 [E1 [C1 R1]]].
    assert (N : nextFrameId (m_frameIdCounter x) = m_frameIdCounter x + 1).
    { unfold nextFrameId. destruct (255 <=? _) eqn:B; [| reflexivity].
      apply Z.leb_le in B. lia. }
    destruct (IH x1 (setFrameId cmd (m_frameIdCounter x)) R1) as [x2 [E2 [C2 R2]]];
      [lia | lia |].
    exists x2. cbn [sendMany]. rewrite E1. cbn [bind]. rewrite E2. cbn [bind].
    repeat split; trivial; [| lia].
    do 2 f_equal. cbn [seq map frameId setFrameId]. f_equal; [lia |].
    do 2 f_equal. rewrite C1, N. lia.
Qed.

(** The ids [c], ..., 255 of the sends that complete a cycle, after which
    the counter is 1 again. *)
Lemma sendMany_cycle (n : nat) :
  forall (x : XBee) (cmd : DigiMeshFrame),
    transport_ready x = true ->
    1 <= m_frameIdCounter x ->
    m_frameIdCounter x + Z.of_nat (S n) = 256 ->
    exists x',
      sendMany (S n) x cmd
      = Ret (x', map Z.of_nat (seq (Z.to_nat (m_frameIdCounter x)) (S n)))
      /\ m_frameIdCounter x' = 1
      /\ transport_ready x' = true.
Proof.
  induction n as [| n IH]; intros x cmd R L U;
    destruct (sendATCommandAsync_ready x cmd R) as [x1 [E1 [C1 R1]]].
  - exists x1. cbn [sendMany]. rewrite E1. cbn.
    repeat split; trivial.
    + do 3 f_equal. lia.
    + rewrite C1. unfold nextFrameId.
      destruct (255 <=? _) eqn:B; [reflexivity |]. apply Z.leb_gt in B. lia.
  - assert (N : nextFrameId (m_frameIdCounter x) = m_frameIdCounter x + 1).
    { unfold nextFrameId. destruct (255 <=? _) eqn:B; [| reflexivity].
      apply Z.leb_le in B. lia. }
    destruct (IH x1 (setFrameId cmd (m_frameIdCounter x)) R1)
      as [x2 [E2 [C2 R2]]]; [lia | lia |].
    exists x2. change (sendMany (S (S n)) x cmd)
      with ('(x, c) <- sendATCommandAsync x cmd ;;
            '(x, ids) <- sendMany (S n) x c ;; Ret (x, frameId c :: ids)).
    rewrite E1. cbn [bind]. rewrite E2. cbn [bind].
    repeat split; trivial.
    do 2 f_equal. rewrite <- (cons_seq (S n)).
    cbn [map frameId setFrameId]. f_equal; [lia |].
    do 2 f_equal. rewrite C1, N. lia.
Qed.

(** C3, as amended. Every frame id given to an outbound command, by the
    asynchronous and by the synchronous send, lies in [1,255], and the
    counter stays in [1,255]; starting from the counter 1, 255 asynchronous
    sends on a usable transport are given the ids 1, 2, ..., 255 in this
    order (0 is never given, 255 is) and leave the counter at 1 again. *)
Theorem C3_frame_ids_1_to_255 (x : XBee) (port : QSerialPort)
        (cmd : DigiMeshFrame) :
  m_serial x = Some port ->
  1 <= m_frameIdCounter x <= 255 ->
  (exists x' cmd',
      sendATCommandAsync x cmd = Ret (x', cmd')
      /\ 1 <= m_frameIdCounter x' <= 255
      /\ (transport_ready x = true ->
          frameId cmd' = m_frameIdCounter x /\ 1 <= frameId cmd' <= 255))
  /\ (exists x' cmd' rep,
         sendATCommandSync x cmd = Ret (x', cmd', rep)
         /\ 1 <= m_frameIdCounter x' <= 255
         /\ frameId cmd' = m_frameIdCounter x /\ 1 <= frameId cmd' <= 255)
  /\ (transport_ready x = true ->
      m_frameIdCounter x = 1 ->
      exists x',
        sendMany 255 x cmd = Ret (x', map Z.of_nat (seq 1 255))
        /\ m_frameIdCounter x' = 1).
Proof.
  intros Hs Hc. split; [| split].
  - destruct (transport_ready x) eqn:R.
    + destruct (sendATCommandAsync_ready x cmd R) as [x' [E [C _]]].
      exists x', (setFrameId cmd (m_frameIdCounter x)).
      split; [exact E |]. split.
      * rewrite C. now apply nextFrameId_range.
      * intros _. cbn. split; [reflexivity | exact Hc].
    + exists x, cmd. split; [now apply (sendATCommandAsync_dropped x port) |].
      split; [exact Hc | discriminate].
  - destruct (sendATCommandSync_response x port cmd Hs)
      as [x' [E [C _]]].
    do 3 eexists. split; [exact E |]. split.
    + rewrite C. now apply nextFrameId_range.
    + cbn. split; [reflexivity | exact Hc].
  - intros R One.
    destruct (sendMany_cycle 254 x cmd R) as [x' [E [C _]]]; [lia | lia |].
    exists x'. rewrite One in E. split; [exact E | exact C].
Qed.

Lemma C3_frame_ids_1_to_255_witness :
  exists x',
    sendMany 255 (Samples.connected StructuredMode) ATCommandFrame
    = Ret (x', map Z.of_nat (seq 1 255))
    /\ m_frameIdCounter x' = 1.
Proof.
  destruct (C3_frame_ids_1_to_255 (Samples.connected StructuredMode)
              Samples.port ATCommandFrame eq_refl) as [_ [_ Cycle]].
  - cbn. lia.
  - apply Cycle; reflexivity.
Defined.

(** C3, as stated, fails: from the counter 1, 254 asynchronous sends on a
    usable transport leave the counter at 255, not at 1, and the next send
    is given the id 255. *)
Lemma C3_counterexample :
  exists x254 ids x255 cmd',
    sendMany 254 (Samples.connected StructuredMode) ATCommandFrame
    = Ret (x254, ids)
    /\ m_frameIdCounter x254 = 255
    /\ m_frameIdCounter x254 <> 1
    /\ sendATCommandAsync x254 ATCommandFrame = Ret (x255, cmd')
    /\ frameId cmd' = 255.
Proof.
  destruct (sendMany_below 254 (Samples.connected StructuredMode)
              ATCommandFrame eq_refl) as [x254 [E [C R]]];
    [cbn; lia | cbn; lia |].
  destruct (sendATCommandAsync_ready x254 ATCommandFrame R) as [x255 [E' _]].
  change (m_frameIdCounter (Samples.connected StructuredMode)) with 1 in C.
  cbn in C.
  do 4 eexists. split; [exact E |]. split; [exact C |].
  split; [rewrite C; discriminate |]. split; [exact E' |].
  cbn. exact C.
Qed.

(** C6, as amended. An asynchronous send advances the frame id counter
    (255 wraps to 1) and gives the command its id exactly when the transport
    is found and open; a command dropped because the transport is not
    usable leaves the counter, the object and the command as they were. *)
Theorem C6_async_counter_gated (x : XBee) (port : QSerialPort)
        (cmd : DigiMeshFrame) :
  m_serial x = Some port ->
  exists x' cmd',
    sendATCommandAsync x cmd = Ret (x', cmd')
    /\ (xbeeFound x && isOpen port = true ->
        m_frameIdCounter x' = nextFrameId (m_frameIdCounter x)
        /\ cmd' = setFrameId cmd (m_frameIdCounter x))
    /\ (xbeeFound x && isOpen port = false ->
        x' = x /\ cmd' = cmd /\ m_frameIdCounter x' = m_frameIdCounter x).
Proof.
  intros Hs. unfold sendATCommandAsync. rewrite Hs.
  destruct (xbeeFound x && isOpen port); do 2 eexists;
    (split; [reflexivity |]); split; intros H; try discriminate H;
    repeat split.
Qed.

Lemma C6_async_counter_gated_witness :
  exists x' cmd',
    sendATCommandAsync Samples.disconnected ATCommandFrame = Ret (x', cmd')
    /\ x' = Samples.disconnected.
Proof.
  destruct (C6_async_counter_gated Samples.disconnected Samples.closed_port
              ATCommandFrame eq_refl) as [x' [cmd' [E [_ Dropped]]]].
  exists x', cmd'. split; [exact E | now apply Dropped].
Defined.

(** C6, as stated, fails: a send on a transport that is not open leaves the
    counter at 1, where an advance would make it 2. *)
Lemma C6_counterexample :
  exists x' cmd',
    sendATCommandAsync Samples.disconnected ATCommandFrame = Ret (x', cmd')
    /\ m_frameIdCounter x' = 1
    /\ nextFrameId (m_frameIdCounter Samples.disconnected) = 2
    /\ m_frameIdCounter x'
       <> nextFrameId (m_frameIdCounter Samples.disconnected).
Proof.
  do 2 eexists. split; [reflexivity |]. cbn. repeat split. discriminate.
Qed.

(** ** Hexadecimal conversion of a payload *)

Lemma digitval_hexdigit (n : Z) :
  0 <= n < 16 -> QByteArray.digitval (QByteArray.hexdigit n) = Some n.
Proof.
  intros [Lo Hi]. set (k := Z.to_nat n).
  assert (E : n = Z.of_nat k) by (subst k; lia).
  assert (K : (k < 16)%nat) by lia.
  rewrite E. clearbody k. clear E Lo Hi.
  do 16 (destruct k as [| k]; [reflexivity |]). lia.
Qed.

Lemma parse16_toHex (a : QByteArray.t) :
  forall acc,
    QByteArray.parse16 acc (QByteArray.toHex a)
    = Some (fold_left (fun v b => 256 * v + Cxx.uchar b) a acc).
Proof.
  induction a as [| b r IH]; intros acc; [reflexivity |].
  pose proof (uchar_range b) as R.
  cbn [QByteArray.toHex QByteArray.parse16 fold_left].
  rewrite digitval_hexdigit
    by (split; [apply Z.div_pos; lia | apply Z.div_lt_upper_bound; lia]).
  rewrite digitval_hexdigit by (apply Z.mod_pos_bound; lia).
  rewrite IH. do 2 f_equal.
  pose proof (Z.div_mod (Cxx.uchar b) 16). lia.
Qed.

(** [toHex] then [toInt(&ok, 16)]: the conversion fails on the empty
    payload and on a value above [INT_MAX], and is the big-endian value of
    the payload otherwise. *)
Lemma toInt16_toHex (a : QByteArray.t) :
  QByteArray.toInt16 (QByteArray.toHex a)
  = match a with
    | [] => None
    | _ => if bigEndian a <=? Cxx.INT_MAX then Some (bigEndian a) else None
    end.
Proof.
  destruct a as [| b r]; [reflexivity |].
  unfold QByteArray.toInt16.
  rewrite parse16_toHex. reflexivity.
Qed.

(** ** The response handler *)

Section ResponseHandler.

Context {hdr : Headers}.

Ltac by_command rep :=
  unfold processATCommandRespone;
  destruct (atCommand (packet rep)); cbn.

Lemma handler_numeric (x : XBee) (rep : ATCommandResponseFrame)
      (p : Property) :
  property_of (atCommand (packet rep)) = Some p ->
  processATCommandRespone x rep
  = (assign x p (dataInt rep),
     [Changed p (Cxx.to_quint (width p) (dataInt rep));
      receivedATCommandResponse rep]).
Proof.
  by_command rep; intros E; try discriminate E;
    injection E as <-; reflexivity.
Qed.

Lemma handler_other (x : XBee) (rep : ATCommandResponseFrame) :
  property_of (atCommand (packet rep)) = None ->
  forall q, m_addr (fst (processATCommandRespone x rep)) q = m_addr x q.
Proof.
  by_command rep; intros E; try discriminate E; reflexivity.
Qed.

Lemma handler_responses (x : XBee) (rep : ATCommandResponseFrame) :
  responses (snd (processATCommandRespone x rep)) = [rep].
Proof. by_command rep; reflexivity. Qed.

Lemma handler_ni (x : XBee) (rep : ATCommandResponseFrame) :
  m_ni (fst (processATCommandRespone x rep))
  = match atCommand (packet rep) with
    | Command_NI => QByteArray.toHex (data (packet rep))
    | _ => m_ni x
    end.
Proof. by_command rep; reflexivity. Qed.

Lemma assign_same (x : XBee) (p : Property) (v : Z) :
  m_addr (assign x p v) p = Cxx.to_quint (width p) v.
Proof. destruct p; reflexivity. Qed.

Lemma assign_other (x : XBee) (p q : Property) (v : Z) :
  q <> p -> m_addr (assign x p v) q = m_addr x q.
Proof. destruct p, q; intros N; try reflexivity; now destruct N. Qed.

Lemma processPacket_response (x : XBee) (pkt : QByteArray.t) :
  isCommandResponse pkt ->
  processPacket x pkt = Ret (processATCommandRespone x (setPacket pkt)).
Proof.
  intros [c [A T]]. unfold processPacket. now rewrite A, T.
Qed.

(** C1, as amended. A dispatched command response whose status indicates
    failure is handled as one with the status OK is: the stored property
    its command code names is overwritten from the payload (a numeric
    property with the converted payload, NI with the payload's text),
    every other stored addressing property is left unchanged, and the
    generic response signal fires exactly once, carrying the response. *)
Theorem C1_failed_response_still_stored (x : XBee) (pkt : QByteArray.t) :
  isCommandResponse pkt ->
  commandStatus pkt <> Ok ->
  exists x' signals,
    processPacket x pkt = Ret (x', signals)
    /\ responses signals = [setPacket pkt]
    /\ (forall p, property_of (atCommand pkt) = Some p ->
                  m_addr x' p
                  = Cxx.to_quint (width p) (dataInt (setPacket pkt)))
    /\ (forall q, property_of (atCommand pkt) <> Some q ->
                  m_addr x' q = m_addr x q)
    /\ (atCommand pkt = Command_NI ->
        m_ni x' = QByteArray.toHex (data pkt))
    /\ (atCommand pkt <> Command_NI -> m_ni x' = m_ni x).
Proof.
  intros D _. rewrite (processPacket_response x pkt D).
  set (rep := setPacket pkt).
  destruct (processATCommandRespone x rep) as [x' signals] eqn:E.
  exists x', signals. split; [reflexivity |].
  pose proof (handler_responses x rep) as R.
  pose proof (handler_ni x rep) as N.
  rewrite E in R, N. cbn [fst snd] in R, N. subst rep. cbn [packet] in N.
  split; [exact R |]. split; [| split; [| split]].
  - intros p P. rewrite (handler_numeric x (setPacket pkt) p P) in E.
    injection E as <- _. apply assign_same.
  - intros q Q.
    destruct (property_of (atCommand pkt)) as [p |] eqn:P.
    + rewrite (handler_numeric x (setPacket pkt) p P) in E.
      injection E as <- _. apply assign_other. congruence.
    + pose proof (handler_other x (setPacket pkt) P q) as O.
      now rewrite E in O.
  - intros C. now rewrite C in N.
  - intros C. destruct (atCommand pkt); try exact N. now destruct C.
Qed.

(** C2, as amended. A dispatched command response for a numeric
    addressing property whose payload fails the hexadecimal conversion
    overwrites the stored value of that property with 0, the value the
    failed conversion yields, and signals the change to 0; the failure is
    ignored, the handler returns and the generic response signal fires. *)
Theorem C2_failed_conversion_stores_zero (x : XBee) (pkt : QByteArray.t)
        (p : Property) :
  isCommandResponse pkt ->
  property_of (atCommand pkt) = Some p ->
  dataToInt (setPacket pkt) = None ->
  exists x',
    processPacket x pkt
    = Ret (x', [Changed p 0; receivedATCommandResponse (setPacket pkt)])
    /\ m_addr x' p = 0
    /\ forall q, q <> p -> m_addr x' q = m_addr x q.
Proof.
  intros D P F. rewrite (processPacket_response x pkt D).
  rewrite (handler_numeric x (setPacket pkt) p P).
  assert (Z0 : dataInt (setPacket pkt) = 0).
  { unfold dataInt, QByteArray.toInt16_value.
    unfold dataToInt in F. now rewrite F. }
  rewrite Z0.
  assert (W : Cxx.to_quint (width p) 0 = 0) by now destruct p.
  rewrite W. eexists. split; [reflexivity |]. split.
  - rewrite assign_same. exact W.
  - intros q Q. now apply assign_other.
Qed.

End ResponseHandler.

Lemma sample_dh_failed_dispatched :
  isCommandResponse (hdr := Sample.headers) Samples.dh_failed.
Proof. exists Byte.x88. split; reflexivity. Qed.

Lemma sample_dh_overflow_dispatched :
  isCommandResponse (hdr := Sample.headers) Samples.dh_overflow.
Proof. exists Byte.x88. split; reflexivity. Qed.

Lemma C1_failed_response_still_stored_witness :
  exists x' signals,
    processPacket (hdr := Sample.headers) Samples.with_dh Samples.dh_failed
    = Ret (x', signals)
    /\ responses signals = [setPacket Samples.dh_failed]
    /\ m_dh x' = 18.
Proof.
  destruct (C1_failed_response_still_stored (hdr := Sample.headers)
              Samples.with_dh Samples.dh_failed sample_dh_failed_dispatched)
    as [x' [signals [E [R [Named _]]]]].
  - cbn. discriminate.
  - exists x', signals. split; [exact E |]. split; [exact R |].
    apply (Named DH). reflexivity.
Defined.

(** C1, as stated, fails: the response [DH] with the status 1 (ERROR) and
    the value [00 00 00 12], dispatched on an object whose [m_dh] is
    [0xABCD], changes [m_dh] to [0x12]. *)
Lemma C1_counterexample :
  isCommandResponse (hdr := Sample.headers) Samples.dh_failed
  /\ commandStatus (Headers := Sample.headers) Samples.dh_failed = Failed 1
  /\ exists x' signals,
      processPacket (hdr := Sample.headers) Samples.with_dh Samples.dh_failed
      = Ret (x', signals)
      /\ m_dh Samples.with_dh = 43981
      /\ m_dh x' = 18
      /\ ~ same_properties Samples.with_dh x'.
Proof.
  split; [exact sample_dh_failed_dispatched |]. split; [reflexivity |].
  do 2 eexists. split; [reflexivity |]. split; [reflexivity |].
  split; [reflexivity |].
  intros [Same _]. specialize (Same DH). discriminate Same.
Qed.

Lemma C2_failed_conversion_stores_zero_witness :
  exists x',
    processPacket (hdr := Sample.headers) Samples.with_dh Samples.dh_overflow
    = Ret (x', [Changed DH 0;
                receivedATCommandResponse (setPacket Samples.dh_overflow)])
    /\ m_dh x' = 0.
Proof.
  destruct (C2_failed_conversion_stores_zero (hdr := Sample.headers)
              Samples.with_dh Samples.dh_overflow DH
              sample_dh_overflow_dispatched eq_refl eq_refl)
    as [x' [E [Z0 _]]].
  exists x'. split; [exact E | exact Z0].
Defined.

(** C2, as stated, fails: the response [DH] with the status OK and the
    value [FF FF FF FF], whose conversion fails, dispatched on an object
    whose [m_dh] is [0xABCD], changes [m_dh] to 0. *)
Lemma C2_counterexample :
  isCommandResponse (hdr := Sample.headers) Samples.dh_overflow
  /\ property_of (atCommand (Headers := Sample.headers) Samples.dh_overflow)
     = Some DH
  /\ dataToInt (hdr := Sample.headers) (setPacket Samples.dh_overflow) = None
  /\ exists x' signals,
      processPacket (hdr := Sample.headers) Samples.with_dh Samples.dh_overflow
      = Ret (x', signals)
      /\ m_dh Samples.with_dh = 43981
      /\ m_dh x' = 0
      /\ m_dh x' <> m_dh Samples.with_dh.
Proof.
  split; [exact sample_dh_overflow_dispatched |].
  split; [reflexivity |]. split; [reflexivity |].
  do 2 eexists. split; [reflexivity |]. split; [reflexivity |].
  split; [reflexivity | discriminate].
Qed.

(** ** The startup handshake *)

Section StartupCheck.

Context {hdr : Headers}.

(** What a synchronous send on an open port leaves in the log of written
    commands. *)
Lemma sendATCommandSync_written (x x' : XBee) (port : QSerialPort)
      (cmd cmd' : DigiMeshFrame) (rep : option ATCommandResponseFrame) :
  m_serial x = Some port ->
  isOpen port = true ->
  sendATCommandSync x cmd = Ret (x', cmd', rep) ->
  cmd' = setFrameId cmd (m_frameIdCounter x)
  /\ exists port', m_serial x' = Some port'
                   /\ isOpen port' = true
                   /\ written port' = written port ++ [cmd'].
Proof.
  intros Hs Open E.
  destruct (sendATCommandSync_response x port cmd Hs)
    as [y [E' [_ [_ [port' [S' [O' [W' _]]]]]]]].
  rewrite E in E'. injection E' as -> -> _. split; [reflexivity |].
  exists port'. rewrite Open in *. repeat split; assumption.
Qed.

(** C8. In the mode step of the handshake, when the query [AP] gets a
    response with the status OK and the value 1, the step succeeds and
    the query is the only command sent; when it gets any other value, the
    command [AP] with the parameter 1 is sent synchronously, and the step
    succeeds exactly when that second send returns a response with the
    status OK. *)
Theorem C8_mode_step (x x1 : XBee) (port : QSerialPort)
        (q1 : DigiMeshFrame) (rep1 : ATCommandResponseFrame) (v : Z) :
  m_serial x = Some port ->
  sendATCommandSync x (setCommand ATCommandFrame "AP")
  = Ret (x1, q1, Some rep1) ->
  commandStatus (packet rep1) = Ok ->
  dataToInt rep1 = Some v ->
  (v = 1 ->
   startupCheck_AP x = Ret (x1, true)
   /\ (isOpen port = true ->
       exists port1, m_serial x1 = Some port1
                     /\ written port1 = written port ++ [q1]))
  /\ (v <> 1 ->
      exists x2 q2 rep2,
        sendATCommandSync x1 (setParameter q1 "1") = Ret (x2, q2, rep2)
        /\ command q2 = "AP"%string /\ parameter q2 = "1"%string
        /\ startupCheck_AP x = Ret (x2, succeeded rep2)
        /\ (isOpen port = true ->
            exists port2, m_serial x2 = Some port2
                          /\ written port2 = written port ++ [q1; q2])).
Proof.
  intros Hs E1 S1 V. split.
  - intros ->. split.
    + unfold startupCheck_AP. rewrite E1. cbn [bind]. now rewrite S1, V.
    + intros Open.
      destruct (sendATCommandSync_written _ _ _ _ _ _ Hs Open E1)
        as [_ [port1 [P1 [_ W1]]]].
      now exists port1.
  - intros NotOne.
    destruct (sendATCommandSync_response x port
                (setCommand ATCommandFrame "AP") Hs)
      as [y [E1' [_ [_ [port1 [P1 [O1 [W1 _]]]]]]]].
    rewrite E1 in E1'. injection E1' as -> -> _.
    destruct (sendATCommandSync_response y port1 (setParameter
                (setFrameId (setCommand ATCommandFrame "AP")
                   (m_frameIdCounter x)) "1") P1)
      as [x2 [E2 [_ [_ [port2 [P2 [O2 [W2 _]]]]]]]].
    do 3 eexists. split; [exact E2 |]. split; [reflexivity |].
    split; [reflexivity |]. split.
    + unfold startupCheck_AP. rewrite E1. cbn [bind]. rewrite S1, V.
      assert (N : negb (v =? 1) = true)
        by (apply negb_true_iff, Z.eqb_neq; exact NotOne).
      rewrite N, E2. cbn [bind].
      destruct (if 0 <? _ then _ else _) as [r |]; [| reflexivity].
      cbn. destruct (commandStatus (packet r)); reflexivity.
    + intros Open. exists port2. split; [exact P2 |].
      rewrite W2, O1, W1, Open, <- app_assoc. reflexivity.
Qed.

(** The hardware step accepts every revision when the constant
    [XBeeSerie1Pro] is not 0. *)
Lemma startupCheck_HV_any_revision (x x1 : XBee) (q : DigiMeshFrame)
      (rep : ATCommandResponseFrame) (v : Z) (bRet : bool) :
  XBeeSerie1Pro <> 0 ->
  sendATCommandSync x (setCommand ATCommandFrame "HV") = Ret (x1, q, Some rep) ->
  commandStatus (packet rep) = Ok ->
  dataToInt rep = Some v ->
  startupCheck_HV x bRet = Ret (x1, bRet).
Proof.
  intros Pro E S V. unfold startupCheck_HV. rewrite E. cbn [bind].
  rewrite S, V. apply Z.eqb_neq in Pro. rewrite Pro, orb_true_r.
  now rewrite andb_true_r.
Qed.

(** C5, on the code. When the constant [XBeeSerie1Pro] is not 0, a
    handshake whose mode step succeeded and whose query [HV] gets a
    response with the status OK and a revision that is neither
    [XBeeSerie1] nor [XBeeSerie1Pro] returns success. *)
Theorem C5_unsupported_revision_accepted (x x1 x2 : XBee)
        (q : DigiMeshFrame) (rep : ATCommandResponseFrame) (v : Z) :
  XBeeSerie1Pro <> 0 ->
  xbeeFound x = true ->
  startupCheck_AP x = Ret (x1, true) ->
  sendATCommandSync x1 (setCommand ATCommandFrame "HV") = Ret (x2, q, Some rep) ->
  commandStatus (packet rep) = Ok ->
  dataToInt rep = Some v ->
  v <> XBeeSerie1 ->
  v <> XBeeSerie1Pro ->
  startupCheck x = Ret (x2, true).
Proof.
  intros Pro F A E S V _ _. unfold startupCheck. rewrite F, A. cbn [bind].
  exact (startupCheck_HV_any_revision x1 x2 q rep v true Pro E S V).
Qed.

End StartupCheck.

Lemma C8_mode_step_witness :
  exists x2 q2 rep2,
    startupCheck_AP (hdr := Sample.headers)
      (Samples.connected_with [Samples.ap_is_2; Samples.ap_set_ok])
    = Ret (x2, succeeded (hdr := Sample.headers) rep2)
    /\ command q2 = "AP"%string /\ parameter q2 = "1"%string
    /\ succeeded (hdr := Sample.headers) rep2 = true.
Proof.
  destruct (C8_mode_step (hdr := Sample.headers)
              (Samples.connected_with [Samples.ap_is_2; Samples.ap_set_ok])
              _ (Samples.port_with [Samples.ap_is_2; Samples.ap_set_ok])
              _ (setPacket Samples.ap_is_2) 2
              eq_refl eq_refl eq_refl eq_refl) as [_ Other].
  destruct Other as [x2 [q2 [rep2 [E2 [C [P [A _]]]]]]]; [discriminate |].
  exists x2, q2, rep2. repeat split; try assumption.
  cbv in E2. injection E2 as _ _ <-. reflexivity.
Defined.

Lemma C5_unsupported_revision_accepted_witness :
  exists x2,
    startupCheck (hdr := Sample.headers)
      (Samples.connected_with [Samples.ap_is_1; Samples.hv_is_1234])
    = Ret (x2, true)
    /\ dataToInt (hdr := Sample.headers) (setPacket Samples.hv_is_1234)
       = Some 4660
    /\ 4660 <> XBeeSerie1 (Headers := Sample.headers)
    /\ 4660 <> XBeeSerie1Pro (Headers := Sample.headers).
Proof.
  eexists. split; [| split; [reflexivity | split; discriminate]].
  eapply (C5_unsupported_revision_accepted (hdr := Sample.headers)
            (Samples.connected_with [Samples.ap_is_1; Samples.hv_is_1234])
            _ _ _ (setPacket Samples.hv_is_1234) 4660);
    try reflexivity; discriminate.
Defined.

(** ** The deframer of the structured mode *)

Lemma skipToStart_garbage (g b : QByteArray.t) :
  garbage g -> skipToStart (g ++ Byte.x7e :: b) = Byte.x7e :: b.
Proof.
  induction 1 as [| c g N _ IH]; [reflexivity |].
  cbn [app skipToStart].
  destruct (Cxx.uchar c =? Cxx.to_uchar startDelimiter) eqn:E; [| exact IH].
  apply Z.eqb_eq in E. destruct N. apply uchar_inj. exact E.
Qed.

Lemma char_value_small (cs : bool) (c : byte) :
  (cs = true -> Cxx.uchar c <= 127) ->
  Cxx.char_value cs c = Cxx.uchar c.
Proof.
  intros S. destruct cs; [| reflexivity]. cbn. unfold Cxx.schar.
  destruct (Cxx.uchar c <? 128) eqn:E; [reflexivity |].
  apply Z.ltb_ge in E. specialize (S eq_refl). lia.
Qed.

Lemma left_prefix (f rest : QByteArray.t) :
  QByteArray.left (f ++ rest) (QByteArray.size f) = f.
Proof.
  unfold QByteArray.left. rewrite size_app.
  pose proof (size_nonneg f). pose proof (size_nonneg rest).
  destruct (QByteArray.size f + QByteArray.size rest <=? QByteArray.size f)
    eqn:E.
  - apply Z.leb_le in E. assert (R : rest = []).
    { destruct rest; [reflexivity |]. unfold QByteArray.size in E.
      cbn [List.length] in E. lia. }
    subst rest. apply app_nil_r.
  - destruct (QByteArray.size f <? 0) eqn:E'; [apply Z.ltb_lt in E'; lia |].
    unfold QByteArray.size. rewrite Nat2Z.id.
    rewrite firstn_app, Nat.sub_diag, firstn_all. cbn. apply app_nil_r.
Qed.

Lemma remove0_prefix (f rest : QByteArray.t) :
  f <> [] ->
  QByteArray.remove0 (f ++ rest) (QByteArray.size f) = rest.
Proof.
  intros NE. unfold QByteArray.remove0. rewrite size_app.
  pose proof (size_nonneg rest).
  assert (0 < QByteArray.size f).
  { destruct f; [now destruct NE |]. unfold QByteArray.size.
    cbn [List.length]. lia. }
  assert (A : (QByteArray.size f <=? 0) = false) by (apply Z.leb_gt; lia).
  assert (B : (QByteArray.size f + QByteArray.size rest <=? 0) = false)
    by (apply Z.leb_gt; lia).
  rewrite A, B. cbn [orb].
  destruct (QByteArray.size f + QByteArray.size rest <=? QByteArray.size f)
    eqn:E.
  - apply Z.leb_le in E. destruct rest; [reflexivity |].
    unfold QByteArray.size in E. cbn [List.length] in E. lia.
  - unfold QByteArray.size. rewrite Nat2Z.id.
    rewrite skipn_app, Nat.sub_diag, skipn_all. reflexivity.
Qed.

Section Deframer.

Context {hdr : Headers}.
Variable char_is_signed : bool.

(** The first frame of an aligned buffer is handed over and the bytes
    after it are kept, where the length byte reads as it is declared and
    the comparison of the sizes, made on their low eight bits, succeeds. *)
Lemma extract_first (L : Z) (f rest : QByteArray.t) :
  wellFormed L f ->
  (char_is_signed = true -> L <= 127) ->
  Cxx.to_uchar (L + 4) <= Cxx.to_uchar (QByteArray.size (f ++ rest)) ->
  extract char_is_signed (f ++ rest) = (Some f, rest).
Proof.
  intros [hi [lo [body [F [Lo Size]]]]] Small Cmp.
  pose proof (uchar_range lo) as R. rewrite Lo in R.
  assert (NE : f <> []) by (subst f; discriminate).
  unfold extract.
  assert (Big : (2 <? QByteArray.size (f ++ rest)) = true).
  { apply Z.ltb_lt. rewrite size_app. pose proof (size_nonneg rest). lia. }
  rewrite Big.
  assert (At : QByteArray.at_ (f ++ rest) 2 = Some lo) by now subst f.
  rewrite At, char_value_small by (rewrite Lo; exact Small).
  rewrite Lo.
  assert (U : Cxx.to_unsigned (L + 4) = L + 4)
    by (unfold Cxx.to_unsigned; apply Z.mod_small; lia).
  assert (I : Cxx.to_int (L + 4) = L + 4).
  { unfold Cxx.to_int. change (2 ^ 32) with 4294967296.
    change (2 ^ 31) with 2147483648. rewrite Z.mod_small by lia.
    cbv zeta.
    destruct (L + 4 <? 2147483648) eqn:E;
      [reflexivity | apply Z.ltb_ge in E; lia]. }
  rewrite U, I. apply Z.leb_le in Cmp. rewrite Cmp.
  rewrite <- Size, left_prefix, remove0_prefix by exact NE. reflexivity.
Qed.

(** A delivery in the structured mode calls [processPacket] at most once:
    on the packet [extract] gives, if it gives one. *)
Lemma deliver_structured (x : XBee) (port : QSerialPort)
      (bytes : QByteArray.t) :
  m_serial x = Some port ->
  m_mode x = StructuredMode ->
  exists y,
    buffer y = skipToStart (accumulated x port bytes)
    /\ m_addr y = m_addr x /\ m_ni y = m_ni x
    /\ deliver char_is_signed bytes x
       = match extract char_is_signed (buffer y) with
         | (Some pkt, rest) =>
             '(x', signals) <- processPacket y pkt ;;
             Ret (set_buffer x' rest, signals)
         | (None, _) => Ret (y, [])
         end.
Proof.
  intros Hs Hm. unfold deliver, readData. rewrite Hs. cbn. rewrite Hm.
  exists (set_buffer
            (set_buffer
               (set_serial (set_serial x (receive bytes port))
                           (snd (readAll (receive bytes port))))
               (accumulated x port bytes))
            (skipToStart (accumulated x port bytes))).
  repeat split.
Qed.

(** The first frame of a delivery on an empty buffer, with garbage before
    it or not, is handed to [processPacket] whole and the bytes after it
    are kept, where the length byte reads as it is declared and the
    comparison of the sizes succeeds. *)
Lemma deliver_first_frame (x : XBee) (port : QSerialPort) (L : Z)
      (g f rest : QByteArray.t) :
  m_serial x = Some port ->
  m_mode x = StructuredMode ->
  buffer x = [] -> unread port = [] ->
  garbage g ->
  wellFormed L f ->
  (char_is_signed = true -> L <= 127) ->
  Cxx.to_uchar (L + 4) <= Cxx.to_uchar (QByteArray.size (f ++ rest)) ->
  exists y,
    buffer y = f ++ rest
    /\ m_addr y = m_addr x /\ m_ni y = m_ni x
    /\ deliver char_is_signed (g ++ f ++ rest) x
       = ('(x', signals) <- processPacket y f ;;
          Ret (set_buffer x' rest, signals)).
Proof.
  intros Hs Hm B U G W Small Cmp.
  destruct (deliver_structured x port (g ++ f ++ rest) Hs Hm)
    as [y [By [Ay [Ny E]]]].
  unfold accumulated in By. rewrite B, U in By. cbn [app] in By.
  assert (A : skipToStart (g ++ f ++ rest) = f ++ rest).
  { destruct W as [hi [lo [body [-> _]]]]. cbn [app].
    now apply skipToStart_garbage. }
  rewrite A in By. exists y. repeat split; trivial.
  now rewrite E, By, (extract_first L f rest).
Qed.

(** Fed alone, with garbage before it or not, a frame whose length byte
    reads as it is declared is handed to [processPacket] whole, and the
    buffer is left empty: every frame where [char] is unsigned, the frames
    of declared length at most 127 where it is signed. *)
Lemma deliver_one_frame (x : XBee) (port : QSerialPort) (L : Z)
      (g f : QByteArray.t) :
  m_serial x = Some port ->
  m_mode x = StructuredMode ->
  buffer x = [] -> unread port = [] ->
  garbage g ->
  wellFormed L f ->
  (char_is_signed = true -> L <= 127) ->
  exists y,
    buffer y = f
    /\ deliver char_is_signed (g ++ f) x
       = ('(x', signals) <- processPacket y f ;;
          Ret (set_buffer x' [], signals)).
Proof.
  intros Hs Hm B U G W Small.
  destruct (deliver_first_frame x port L g f [] Hs Hm B U G W Small)
    as [y [By [_ [_ E]]]].
  - rewrite app_nil_r. destruct W as [_ [_ [_ [_ [_ ->]]]]]. lia.
  - rewrite app_nil_r in *. now exists y.
Qed.

End Deframer.

Example deliver_spec_example :
  exists x',
    deliver (hdr := Sample.headers) true
            (Samples.spec_garbage ++ Samples.spec_frame)
            (Samples.connected StructuredMode)
    = Ret (x', [receivedRXIndicator Samples.spec_frame])
    /\ buffer x' = [].
Proof. eexists. split; reflexivity. Qed.

Lemma sample_rx_128_wellFormed : wellFormed 128 Samples.rx_128.
Proof. do 3 eexists. repeat split. Qed.

(** Where [char] is unsigned the frame of declared length 128 is handed
    over whole. *)
Example deliver_rx_128_unsigned :
  exists x',
    deliver (hdr := Sample.headers) false Samples.rx_128
            (Samples.connected StructuredMode)
    = Ret (x', [receivedRXIndicator Samples.rx_128])
    /\ buffer x' = [].
Proof. eexists. split; vm_compute; reflexivity. Qed.

(** C4, on the code. Where [char] is signed, the well-formed frame of
    declared length 128, fed alone as its 132 bytes, is not extracted: the
    length byte reads as -128, the packet handed to the dispatcher is the
    empty one, on which the read of the type byte is out of range, and
    nothing is removed from the buffer. *)
Theorem C4_length_128_not_extracted (hdr : Headers) :
  wellFormed 128 Samples.rx_128
  /\ QByteArray.size Samples.rx_128 = 128 + 4
  /\ extract true Samples.rx_128 = (Some [], Samples.rx_128)
  /\ deliver true Samples.rx_128 (Samples.connected StructuredMode)
     = Undefined.
Proof.
  split; [exact sample_rx_128_wellFormed |]. repeat split.
Qed.

Lemma sample_modem_status_wellFormed : wellFormed 2 Samples.modem_status.
Proof. do 3 eexists. repeat split. Qed.

(** C10, on the code. A delivery of 43 complete modem status frames of six
    bytes, 258 bytes in all, on an empty buffer emits nothing and keeps all
    the bytes: the size of the buffer is compared on its low eight bits, and
    2 is less than 6. *)
Theorem C10_backlog_emits_nothing (hdr : Headers) (char_is_signed : bool) :
  wellFormed 2 Samples.modem_status
  /\ Samples.backlog = List.concat (repeat Samples.modem_status 43)
  /\ QByteArray.size Samples.backlog = 258
  /\ exists x',
      deliver char_is_signed Samples.backlog
              (Samples.connected StructuredMode)
      = Ret (x', [])
      /\ buffer x' = Samples.backlog.
Proof.
  split; [exact sample_modem_status_wellFormed |]. repeat split.
  destruct char_is_signed; eexists; split; vm_compute; reflexivity.
Qed.

(** Two modem status frames in one delivery: the first is emitted, the
    second stays in the buffer. *)
Example deliver_two_frames :
  exists x',
    deliver (hdr := Sample.headers) true
            (Samples.modem_status ++ Samples.modem_status)
            (Samples.connected StructuredMode)
    = Ret (x', [receivedModemStatus Samples.modem_status])
    /\ buffer x' = Samples.modem_status.
Proof. eexists. split; reflexivity. Qed.

(** The mode step on a device already in the mode 1: one command written,
    the query [AP] with the frame id 1. *)
Example startupCheck_AP_already_1 :
  exists x1 port1,
    startupCheck_AP (hdr := Sample.headers)
      (Samples.connected_with [Samples.ap_is_1])
    = Ret (x1, true)
    /\ m_serial x1 = Some port1
    /\ written port1 = [mkCommand 1 "AP" ""].
Proof. do 2 eexists. repeat split. Qed.

(** With the check written as a membership test the same replies would be
    refused: the revision is in neither constant. *)
Example startupCheck_unsupported_revision :
  exists x2,
    startupCheck (hdr := Sample.headers)
      (Samples.connected_with [Samples.ap_is_1; Samples.hv_is_1234])
    = Ret (x2, true).
Proof. eexists. reflexivity. Qed.

(** * Further properties of the driver *)

(** ** Payloads as numbers *)

Lemma bigEndian_from (a : QByteArray.t) :
  forall acc,
    fold_left (fun v b => 256 * v + Cxx.uchar b) a acc
    = acc * 256 ^ QByteArray.size a + bigEndian a.
Proof.
  unfold bigEndian, QByteArray.size.
  induction a as [| b r IH]; intros acc.
  - cbn. lia.
  - cbn [fold_left List.length]. rewrite IH, (IH (256 * 0 + Cxx.uchar b)).
    rewrite Nat2Z.inj_succ, Z.pow_succ_r by lia. lia.
Qed.

Lemma bigEndian_range (a : QByteArray.t) :
  0 <= bigEndian a < 256 ^ QByteArray.size a.
Proof.
  induction a as [| b r IH].
  - cbn. lia.
  - unfold bigEndian. cbn [fold_left]. rewrite bigEndian_from.
    pose proof (uchar_range b). unfold QByteArray.size in *.
    cbn [List.length]. rewrite Nat2Z.inj_succ, Z.pow_succ_r by lia.
    nia.
Qed.

Lemma payload_converts (a : QByteArray.t) :
  a <> [] ->
  bigEndian a <= Cxx.INT_MAX ->
  QByteArray.toInt16 (QByteArray.toHex a) = Some (bigEndian a).
Proof.
  intros NE Fit. rewrite toInt16_toHex.
  destruct a as [| b r]; [now destruct NE |].
  apply Z.leb_le in Fit. now rewrite Fit.
Qed.

(** X1. The payload of a response converts exactly when it is not empty and its
    big-endian value fits an [int]; the value converted is the big-endian
    value. *)
Theorem payload_converts_iff (a : QByteArray.t) (v : Z) :
  QByteArray.toInt16 (QByteArray.toHex a) = Some v
  <-> a <> [] /\ v = bigEndian a /\ v <= Cxx.INT_MAX.
Proof.
  rewrite toInt16_toHex. destruct a as [| b r].
  - split; [discriminate | intros [N _]; now destruct N].
  - destruct (bigEndian (b :: r) <=? Cxx.INT_MAX) eqn:E.
    + apply Z.leb_le in E. split.
      * intros [= <-]. repeat split; [discriminate | exact E].
      * intros [_ [-> _]]. reflexivity.
    + apply Z.leb_gt in E. split; [discriminate |].
      intros [_ [-> L]]. lia.
Qed.

(** X2. A payload of one to three bytes always converts. *)
Theorem short_payload_converts (a : QByteArray.t) :
  1 <= QByteArray.size a <= 3 ->
  QByteArray.toInt16 (QByteArray.toHex a) = Some (bigEndian a).
Proof.
  intros S. apply payload_converts.
  - intros ->. cbn in S. lia.
  - pose proof (bigEndian_range a) as R.
    assert (256 ^ QByteArray.size a <= 256 ^ 3)
      by (apply Z.pow_le_mono_r; lia).
    unfold Cxx.INT_MAX. lia.
Qed.

Lemma short_payload_converts_witness :
  QByteArray.toInt16 (QByteArray.toHex [Byte.xab; Byte.xcd]) = Some 43981.
Proof.
  apply (short_payload_converts [Byte.xab; Byte.xcd]). cbn. lia.
Defined.

Section Dispatch.

Context {hdr : Headers}.

(** X3. A response for a numeric property whose payload converts stores the
    big-endian value of the payload, cut to the width of the member, and
    signals that stored value once, before the generic response signal. *)
Theorem response_stores_payload (x : XBee) (pkt : QByteArray.t)
        (p : Property) :
  isCommandResponse pkt ->
  property_of (atCommand pkt) = Some p ->
  data pkt <> [] ->
  bigEndian (data pkt) <= Cxx.INT_MAX ->
  exists x',
    processPacket x pkt
    = Ret (x', [Changed p (bigEndian (data pkt) mod 2 ^ width p);
                receivedATCommandResponse (setPacket pkt)])
    /\ m_addr x' p = bigEndian (data pkt) mod 2 ^ width p
    /\ (forall q, q <> p -> m_addr x' q = m_addr x q)
    /\ m_ni x' = m_ni x.
Proof.
  intros D P NE Fit. rewrite (processPacket_response x pkt D).
  rewrite (handler_numeric x (setPacket pkt) p P).
  assert (V : dataInt (setPacket pkt) = bigEndian (data pkt)).
  { unfold dataInt, QByteArray.toInt16_value. cbn [packet].
    assert (C : QByteArray.toInt16 (QByteArray.toHex (data pkt))
                = Some (bigEndian (data pkt)))
      by (apply payload_converts; assumption).
    rewrite C. unfold Cxx.to_quint. apply Z.mod_small.
    pose proof (bigEndian_range (data pkt)). unfold Cxx.INT_MAX in Fit.
    change (2 ^ 32) with 4294967296. change (2 ^ 31) with 2147483648 in Fit.
    lia. }
  rewrite V. eexists. split; [reflexivity |]. split; [| split].
  - apply assign_same.
  - intros q Q. now apply assign_other.
  - reflexivity.
Qed.

Lemma handler_session (x : XBee) (rep : ATCommandResponseFrame) :
  same_session x (fst (processATCommandRespone x rep)).
Proof.
  unfold processATCommandRespone.
  destruct (atCommand (packet rep)); cbn; repeat split.
Qed.

Lemma handler_signals (x : XBee) (rep : ATCommandResponseFrame) :
  exists before,
    snd (processATCommandRespone x rep)
    = before ++ [receivedATCommandResponse rep]
    /\ (List.length before <= 1)%nat.
Proof.
  unfold processATCommandRespone.
  destruct (atCommand (packet rep)); cbn;
    (eexists [_] + exists []); split; try reflexivity; cbn; lia.
Qed.

Lemma processPacket_short (x : XBee) (pkt : QByteArray.t) :
  QByteArray.size pkt < 4 -> processPacket x pkt = Undefined.
Proof.
  unfold processPacket, QByteArray.at_, QByteArray.size. intros S.
  assert (E : nth_error pkt 3 = None) by (apply nth_error_None; lia).
  now rewrite E.
Qed.

Lemma processPacket_long (x : XBee) (pkt : QByteArray.t) :
  4 <= QByteArray.size pkt -> exists r, processPacket x pkt = Ret r.
Proof.
  unfold processPacket, QByteArray.at_, QByteArray.size. intros S.
  destruct (nth_error pkt 3) as [c |] eqn:E.
  - destruct (apiId (Cxx.uchar c)); eexists; reflexivity.
  - apply nth_error_None in E. lia.
Qed.


Lemma processPacket_session (x x' : XBee) (pkt : QByteArray.t)
      (signals : list Signal) :
  processPacket x pkt = Ret (x', signals) -> same_session x x'.
Proof.
  unfold processPacket. intros E.
  destruct (QByteArray.at_ pkt 3) as [c |]; [| discriminate].
  destruct (apiId (Cxx.uchar c)); injection E as E;
    try (subst x'; now repeat split).
  pose proof (handler_session x (setPacket pkt)) as S. now rewrite E in S.
Qed.

(** X5. A dispatch leaves the port, the found flag, the mode, the frame id
    counter and the buffer as they were; a packet that is no command
    response leaves the whole object as it was and emits one signal at
    most; a command response emits the generic response signal last, after
    one property signal at most. *)
Theorem processPacket_effects (x x' : XBee) (pkt : QByteArray.t)
        (signals : list Signal) :
  processPacket x pkt = Ret (x', signals) ->
  same_session x x'
  /\ (~ isCommandResponse pkt -> x' = x /\ (List.length signals <= 1)%nat)
  /\ (isCommandResponse pkt ->
      exists before,
        signals = before ++ [receivedATCommandResponse (setPacket pkt)]
        /\ (List.length before <= 1)%nat).
Proof.
  unfold processPacket. intros E.
  destruct (QByteArray.at_ pkt 3) as [c |] eqn:A; [| discriminate].
  destruct (apiId (Cxx.uchar c)) eqn:T.
  1: { injection E as E. split; [| split].
       - pose proof (handler_session x (setPacket pkt)) as S.
         now rewrite E in S.
       - intros N. destruct N. now exists c.
       - intros _. pose proof (handler_signals x (setPacket pkt)) as S.
         now rewrite E in S. }
  all: injection E as <- <-; split; [repeat split | split];
    [ intros _; split; [reflexivity | cbn; lia]
    | intros [c' [A' T']]; rewrite A in A'; injection A' as <-;
      rewrite T in T'; discriminate T' ].
Qed.

End Dispatch.

Lemma response_stores_payload_witness :
  exists x',
    processPacket (hdr := Sample.headers)
                  (Samples.connected StructuredMode) Samples.dh_ok
    = Ret (x', [Changed DH 43981;
                receivedATCommandResponse (setPacket Samples.dh_ok)])
    /\ m_dh x' = 43981.
Proof.
  destruct (response_stores_payload (hdr := Sample.headers)
              (Samples.connected StructuredMode) Samples.dh_ok DH)
    as [x' [E [V _]]].
  - exists Byte.x88. split; reflexivity.
  - reflexivity.
  - cbn. discriminate.
  - cbv. discriminate.
  - exists x'. split; [exact E | exact V].
Defined.

Lemma processPacket_effects_witness :
  same_session (Samples.connected StructuredMode)
               (Samples.connected StructuredMode).
Proof.
  exact (proj1 (processPacket_effects (hdr := Sample.headers)
                  (Samples.connected StructuredMode)
                  (Samples.connected StructuredMode)
                  Samples.modem_status
                  [receivedModemStatus Samples.modem_status] eq_refl)).
Defined.

(** ** The deframer, in general *)


Lemma skipToStart_garbage_only (g : QByteArray.t) :
  garbage g -> skipToStart g = [].
Proof.
  induction 1 as [| c g N _ IH]; [reflexivity |]. cbn [skipToStart].
  destruct (Cxx.uchar c =? Cxx.to_uchar startDelimiter) eqn:E; [| exact IH].
  apply Z.eqb_eq in E. destruct N. now apply uchar_inj.
Qed.

Lemma skipToStart_merge (a b : QByteArray.t) :
  skipToStart (skipToStart a ++ b) = skipToStart (a ++ b).
Proof.
  induction a as [| c r IH]; [reflexivity |]. cbn [skipToStart app].
  destruct (Cxx.uchar c =? Cxx.to_uchar startDelimiter) eqn:E.
  - cbn [skipToStart app]. now rewrite E.
  - exact IH.
Qed.

Lemma size_0_nil (b : QByteArray.t) : QByteArray.size b <= 0 -> b = [].
Proof.
  destruct b; [reflexivity |]. unfold QByteArray.size. cbn [List.length]. lia.
Qed.

Lemma left_remove0 (b : QByteArray.t) (len : Z) :
  QByteArray.left b len ++ QByteArray.remove0 b len = b.
Proof.
  unfold QByteArray.left, QByteArray.remove0.
  pose proof (size_nonneg b) as P.
  destruct (Z.leb_spec (QByteArray.size b) len) as [A | A].
  - destruct (Z.leb_spec len 0) as [B | B]; cbn [orb].
    + rewrite (size_0_nil b) by lia. reflexivity.
    + destruct (Z.leb_spec (QByteArray.size b) 0) as [C | C].
      * rewrite (size_0_nil b C). reflexivity.
      * apply app_nil_r.
  - destruct (Z.ltb_spec len 0) as [D | D].
    + destruct (Z.leb_spec len 0) as [B | B]; [reflexivity | lia].
    + destruct (Z.leb_spec len 0) as [B | B]; cbn [orb].
      * assert (len = 0) by lia. subst len. reflexivity.
      * destruct (Z.leb_spec (QByteArray.size b) 0) as [C | C]; [lia |].
        apply firstn_skipn.
Qed.

Lemma size_left (b : QByteArray.t) (len : Z) :
  QByteArray.size (QByteArray.left b len) <= QByteArray.size b.
Proof.
  rewrite <- (left_remove0 b len) at 2. rewrite size_app.
  pose proof (size_nonneg (QByteArray.remove0 b len)). lia.
Qed.

Section DeframerInGeneral.

Context {hdr : Headers}.
Variable char_is_signed : bool.


(** A delivery in the structured mode, on the object it first brings to
    [aligned]. *)
Lemma deliver_aligned (x : XBee) (port : QSerialPort) (bytes : QByteArray.t) :
  m_serial x = Some port ->
  m_mode x = StructuredMode ->
  deliver char_is_signed bytes x
  = match extract char_is_signed (skipToStart (accumulated x port bytes)) with
    | (Some pkt, rest) =>
        '(x', signals) <- processPacket (aligned x port bytes) pkt ;;
        Ret (set_buffer x' rest, signals)
    | (None, _) => Ret (aligned x port bytes, [])
    end.
Proof.
  intros Hs Hm. unfold deliver, readData. rewrite Hs. cbn. rewrite Hm.
  reflexivity.
Qed.


(** X7. A delivery whose accumulated bytes hold no start delimiter discards
    them all and emits nothing. *)
Theorem deliver_garbage_only (x : XBee) (port : QSerialPort)
        (bytes : QByteArray.t) :
  m_serial x = Some port ->
  m_mode x = StructuredMode ->
  garbage (accumulated x port bytes) ->
  exists x',
    deliver char_is_signed bytes x = Ret (x', []) /\ buffer x' = [].
Proof.
  intros Hs Hm G. rewrite (deliver_aligned x port bytes Hs Hm).
  rewrite (skipToStart_garbage_only _ G). cbn.
  eexists. split; [reflexivity |]. cbn.
  now rewrite (skipToStart_garbage_only _ G).
Qed.

Lemma deliver_stalled (x : XBee) (port : QSerialPort) (a : QByteArray.t) :
  m_serial x = Some port ->
  m_mode x = StructuredMode ->
  fst (extract char_is_signed (skipToStart (accumulated x port a))) = None ->
  deliver char_is_signed a x = Ret (aligned x port a, []).
Proof.
  intros Hs Hm N. rewrite (deliver_aligned x port a Hs Hm).
  destruct (extract _ _) as [[pkt |] rest]; [discriminate N | reflexivity].
Qed.

Lemma deliver_after_stall (x : XBee) (port : QSerialPort)
      (a b : QByteArray.t) :
  m_serial x = Some port ->
  m_mode x = StructuredMode ->
  deliver char_is_signed b (aligned x port a)
  = deliver char_is_signed (a ++ b) x.
Proof.
  intros Hs Hm.
  rewrite (deliver_aligned (aligned x port a) (drained port) b eq_refl Hm).
  rewrite (deliver_aligned x port (a ++ b) Hs Hm).
  assert (A : accumulated (aligned x port a) (drained port) b
              = skipToStart (accumulated x port a) ++ b) by reflexivity.
  assert (B : accumulated x port (a ++ b) = accumulated x port a ++ b)
    by (unfold accumulated; now rewrite !app_assoc).
  assert (S : aligned (aligned x port a) (drained port) b
              = aligned x port (a ++ b)).
  { unfold aligned at 1 3. rewrite A, B, skipToStart_merge.
    reflexivity. }
  now rewrite A, B, skipToStart_merge, S.
Qed.

(** X8. A delivery that hands no packet over can be merged with the next one:
    the two deliveries, of [a] then of [b], end as the one delivery of
    [a ++ b] does. *)
Theorem deliver_merge (x : XBee) (port : QSerialPort) (a b : QByteArray.t) :
  m_serial x = Some port ->
  m_mode x = StructuredMode ->
  fst (extract char_is_signed (skipToStart (accumulated x port a))) = None ->
  exists x1,
    deliver char_is_signed a x = Ret (x1, [])
    /\ buffer x1 = skipToStart (accumulated x port a)
    /\ deliver char_is_signed b x1 = deliver char_is_signed (a ++ b) x.
Proof.
  intros Hs Hm N. exists (aligned x port a).
  split; [now apply deliver_stalled |]. split; [reflexivity |].
  now apply deliver_after_stall.
Qed.

(** X9. The first frame of the accumulated buffer, with garbage before it or
    not, is handed to the dispatcher whole and the bytes after it are kept
    for a later delivery, when its length byte is below 128 and fewer than
    256 bytes are buffered from the start delimiter on. *)
Theorem deliver_first_of_buffer (x : XBee) (port : QSerialPort) (L : Z)
        (bytes g f rest : QByteArray.t) :
  m_serial x = Some port ->
  m_mode x = StructuredMode ->
  accumulated x port bytes = g ++ f ++ rest ->
  garbage g ->
  wellFormed L f ->
  L <= 127 ->
  QByteArray.size (f ++ rest) < 256 ->
  deliver char_is_signed bytes x
  = ('(x', signals) <- processPacket (aligned x port bytes) f ;;
     Ret (set_buffer x' rest, signals)).
Proof.
  intros Hs Hm Acc G W Small Few.
  rewrite (deliver_aligned x port bytes Hs Hm), Acc.
  assert (A : skipToStart (g ++ f ++ rest) = f ++ rest).
  { destruct W as [hi [lo [body [-> _]]]]. cbn [app].
    now apply skipToStart_garbage. }
  rewrite A, (extract_first char_is_signed L f rest W (fun _ => Small));
    [reflexivity |].
  assert (R : 0 <= L) by
      (destruct W as [_ [lo [_ [_ [<- _]]]]]; apply uchar_range).
  assert (S : L + 4 <= QByteArray.size (f ++ rest)).
  { rewrite size_app. destruct W as [_ [_ [_ [_ [_ ->]]]]].
    pose proof (size_nonneg rest). lia. }
  unfold Cxx.to_uchar. rewrite !Z.mod_small by lia. exact S.
Qed.

End DeframerInGeneral.

Section DeframerEdges.

Context {hdr : Headers}.
Variable char_is_signed : bool.

(** The length the deframer computes from a length byte below 128. *)
Lemma length_small (lo : byte) :
  Cxx.uchar lo <= 127 ->
  Cxx.to_unsigned (Cxx.char_value char_is_signed lo + 4) = Cxx.uchar lo + 4
  /\ Cxx.to_int (Cxx.uchar lo + 4) = Cxx.uchar lo + 4
  /\ Cxx.to_uchar (Cxx.uchar lo + 4) = Cxx.uchar lo + 4.
Proof.
  intros S. pose proof (uchar_range lo) as R.
  rewrite char_value_small by (intros _; exact S).
  unfold Cxx.to_unsigned, Cxx.to_int, Cxx.to_uchar.
  change (2 ^ 32) with 4294967296. change (2 ^ 31) with 2147483648.
  rewrite !Z.mod_small by lia. cbv zeta.
  destruct (Z.ltb_spec (Cxx.uchar lo + 4) 2147483648); [| lia].
  repeat split.
Qed.

(** An aligned buffer that holds fewer bytes than its length byte, below
    128, declares waits: no packet is handed over. *)
Lemma extract_incomplete (b : QByteArray.t) :
  QByteArray.size b <= 2
  \/ (exists lo, QByteArray.at_ b 2 = Some lo
                 /\ Cxx.uchar lo <= 127
                 /\ QByteArray.size b < Cxx.uchar lo + 4) ->
  extract char_is_signed b = (None, b).
Proof.
  unfold extract. intros [S | [lo [A [Lo S]]]].
  - destruct (Z.ltb_spec 2 (QByteArray.size b)); [lia | reflexivity].
  - destruct (2 <? QByteArray.size b); [| reflexivity]. rewrite A.
    destruct (length_small lo Lo) as [-> [_ ->]].
    pose proof (uchar_range lo) as R. pose proof (size_nonneg b) as P.
    unfold Cxx.to_uchar. rewrite Z.mod_small by lia.
    destruct (Z.leb_spec (Cxx.uchar lo + 4) (QByteArray.size b));
      [lia | reflexivity].
Qed.

(** A packet cut with a length byte below 128 has four bytes at least. *)
Lemma extract_small_length (b pkt rest : QByteArray.t) (lo : byte) :
  QByteArray.at_ b 2 = Some lo ->
  Cxx.uchar lo <= 127 ->
  extract char_is_signed b = (Some pkt, rest) ->
  QByteArray.size pkt = Cxx.uchar lo + 4.
Proof.
  unfold extract. intros A Lo.
  destruct (2 <? QByteArray.size b); [| discriminate]. rewrite A.
  destruct (length_small lo Lo) as [-> [-> ->]].
  pose proof (uchar_range lo) as R. pose proof (size_nonneg b) as P.
  destruct (Z.leb_spec (Cxx.uchar lo + 4) (Cxx.to_uchar (QByteArray.size b)))
    as [C |]; [| discriminate].
  intros [= <- _].
  assert (M : Cxx.to_uchar (QByteArray.size b) <= QByteArray.size b)
    by (unfold Cxx.to_uchar; apply Z.mod_le; lia).
  unfold QByteArray.left.
  destruct (Z.leb_spec (QByteArray.size b) (Cxx.uchar lo + 4)); [lia |].
  destruct (Z.ltb_spec (Cxx.uchar lo + 4) 0); [lia |].
  unfold QByteArray.size in *. rewrite length_firstn. lia.
Qed.

(** X10. A delivery in the structured mode returns whenever the third byte of
    the aligned buffer, if there is one, is below 128, whatever the
    signedness of [char] and however many bytes are buffered. *)
Theorem deliver_returns (x : XBee) (port : QSerialPort)
        (bytes : QByteArray.t) :
  m_serial x = Some port ->
  m_mode x = StructuredMode ->
  (forall lo,
      QByteArray.at_ (skipToStart (accumulated x port bytes)) 2 = Some lo ->
      Cxx.uchar lo <= 127) ->
  exists x' signals, deliver char_is_signed bytes x = Ret (x', signals).
Proof.
  intros Hs Hm Lo. rewrite (deliver_aligned char_is_signed x port bytes Hs Hm).
  set (b := skipToStart (accumulated x port bytes)) in *.
  destruct (extract char_is_signed b) as [[pkt |] rest] eqn:X;
    [| do 2 eexists; reflexivity].
  assert (A : exists lo, QByteArray.at_ b 2 = Some lo).
  { unfold extract in X. destruct (2 <? QByteArray.size b); [| discriminate].
    destruct (QByteArray.at_ b 2) as [lo |]; [now exists lo | discriminate]. }
  destruct A as [lo A].
  pose proof (extract_small_length b pkt rest lo A (Lo lo A) X) as S.
  pose proof (uchar_range lo) as R.
  destruct (processPacket_long (aligned x port bytes) pkt) as [[x1 s1] P];
    [lia |].
  rewrite P. cbn. do 2 eexists. reflexivity.
Qed.

(** X11. A frame split over two deliveries, with garbage before it or not:
    nothing is emitted by the first delivery, which keeps the part of the
    frame it brought, and the second hands the whole frame to the
    dispatcher and leaves the buffer empty. *)
Theorem deliver_split_frame (x : XBee) (port : QSerialPort) (L : Z)
        (g f1 f2 : QByteArray.t) :
  m_serial x = Some port ->
  m_mode x = StructuredMode ->
  buffer x = [] -> unread port = [] ->
  garbage g ->
  wellFormed L (f1 ++ f2) ->
  L <= 127 ->
  f2 <> [] ->
  exists x1 y,
    deliver char_is_signed (g ++ f1) x = Ret (x1, [])
    /\ buffer x1 = f1
    /\ buffer y = f1 ++ f2
    /\ deliver char_is_signed f2 x1
       = ('(x', signals) <- processPacket y (f1 ++ f2) ;;
          Ret (set_buffer x' [], signals)).
Proof.
  intros Hs Hm B U G W Small NE.
  assert (Acc : accumulated x port (g ++ f1) = g ++ f1)
    by (unfold accumulated; now rewrite B, U).
  assert (Al : skipToStart (g ++ f1) = f1).
  { destruct f1 as [| c r].
    - rewrite app_nil_r. now apply skipToStart_garbage_only.
    - destruct W as [hi [lo [rest [F _]]]]. cbn in F. injection F as -> _.
      now apply skipToStart_garbage. }
  assert (Short : QByteArray.size f1 < L + 4).
  { destruct W as [_ [_ [_ [_ [_ S]]]]]. rewrite size_app in S.
    assert (0 < QByteArray.size f2).
    { destruct f2; [now destruct NE |]. unfold QByteArray.size.
      cbn [List.length]. lia. }
    lia. }
  assert (X : extract char_is_signed f1 = (None, f1)).
  { apply extract_incomplete.
    destruct (Z.leb_spec (QByteArray.size f1) 2) as [| Big]; [now left |].
    right. destruct W as [hi [lo [rest [F [Lo _]]]]].
    exists lo. subst L. repeat split; trivial.
    destruct f1 as [| a [| b [| c r]]];
      try (unfold QByteArray.size in Big; cbn in Big; lia).
    cbn in F. now injection F as _ _ -> _. }
  assert (N : fst (extract char_is_signed
                     (skipToStart (accumulated x port (g ++ f1)))) = None)
    by now rewrite Acc, Al, X.
  destruct (deliver_one_frame char_is_signed x port L g (f1 ++ f2)
              Hs Hm B U G W (fun _ => Small)) as [y [By Ey]].
  exists (aligned x port (g ++ f1)), y.
  split; [now apply deliver_stalled |]. split; [| split; [exact By |]].
  - unfold aligned. cbn. now rewrite Acc, Al.
  - now rewrite (deliver_after_stall char_is_signed x port (g ++ f1) f2 Hs Hm),
      <- app_assoc.
Qed.

(** X12. An aligned buffer of exactly three bytes whose third byte is [0xFC] or
    more makes the deframer cut a packet of three bytes at most, and the
    read of its type byte is out of range: the behaviour of the delivery is
    undefined, where [char] is signed and where it is not. *)
Theorem deliver_three_bytes_undefined (x : XBee) (port : QSerialPort)
        (bytes : QByteArray.t) (s hi lo : byte) :
  m_serial x = Some port ->
  m_mode x = StructuredMode ->
  skipToStart (accumulated x port bytes) = [s; hi; lo] ->
  252 <= Cxx.uchar lo ->
  deliver char_is_signed bytes x = Undefined.
Proof.
  intros Hs Hm Al Lo.
  rewrite (deliver_aligned char_is_signed x port bytes Hs Hm), Al.
  pose proof (uchar_range lo) as R.
  assert (X : exists pkt rest,
             extract char_is_signed [s; hi; lo] = (Some pkt, rest)
             /\ QByteArray.size pkt <= 3).
  { unfold extract.
    change (QByteArray.size [s; hi; lo]) with 3.
    change (QByteArray.at_ [s; hi; lo] 2) with (Some lo).
    change (2 <? 3) with true. cbv iota.
    assert (C : Cxx.to_uchar (Cxx.to_unsigned
                  (Cxx.char_value char_is_signed lo + 4))
                = Cxx.uchar lo - 252).
    { unfold Cxx.to_uchar, Cxx.to_unsigned, Cxx.char_value, Cxx.schar.
      change (2 ^ 32) with 4294967296.
      destruct char_is_signed.
      - destruct (Z.ltb_spec (Cxx.uchar lo) 128); [lia |].
        rewrite (Z.mod_small (_ + 4)) by lia. rewrite Z.mod_small; lia.
      - rewrite (Z.mod_small (_ + 4)) by lia.
        symmetry. apply (Z.mod_unique _ _ 1); lia. }
    rewrite C. change (Cxx.to_uchar 3) with 3.
    destruct (Z.leb_spec (Cxx.uchar lo - 252) 3); [| lia].
    do 2 eexists. split; [reflexivity |].
    apply (size_left [s; hi; lo]). }
  destruct X as [pkt [rest [-> S]]].
  assert (U : processPacket (aligned x port bytes) pkt = Undefined)
    by (apply processPacket_short; lia).
  now rewrite U.
Qed.

End DeframerEdges.

Lemma sample_garbage : garbage Samples.spec_garbage.
Proof. repeat constructor; discriminate. Qed.


Lemma deliver_garbage_only_witness :
  exists x',
    deliver (hdr := Sample.headers) true Samples.spec_garbage
            (Samples.connected StructuredMode) = Ret (x', [])
    /\ buffer x' = [].
Proof.
  apply (deliver_garbage_only (hdr := Sample.headers) true
           (Samples.connected StructuredMode) Samples.port
           Samples.spec_garbage eq_refl eq_refl).
  exact sample_garbage.
Defined.

Lemma deliver_merge_witness :
  exists x1,
    deliver (hdr := Sample.headers) true [Byte.x7e; Byte.x00; Byte.x02]
            (Samples.connected StructuredMode) = Ret (x1, [])
    /\ buffer x1 = [Byte.x7e; Byte.x00; Byte.x02]
    /\ deliver (hdr := Sample.headers) true [Byte.x8a; Byte.x06; Byte.x6f] x1
       = deliver (hdr := Sample.headers) true Samples.modem_status
                 (Samples.connected StructuredMode).
Proof.
  exact (deliver_merge (hdr := Sample.headers) true
           (Samples.connected StructuredMode) Samples.port
           [Byte.x7e; Byte.x00; Byte.x02] [Byte.x8a; Byte.x06; Byte.x6f]
           eq_refl eq_refl eq_refl).
Defined.

Lemma deliver_returns_witness :
  exists x' signals,
    deliver (hdr := Sample.headers) true Samples.backlog
            (Samples.connected StructuredMode) = Ret (x', signals).
Proof.
  apply (deliver_returns (hdr := Sample.headers) true
           (Samples.connected StructuredMode) Samples.port Samples.backlog
           eq_refl eq_refl).
  intros lo [= <-]. cbv. discriminate.
Defined.

Lemma deliver_first_of_buffer_witness :
  exists x',
    deliver (hdr := Sample.headers) true
            (Samples.modem_status ++ Samples.spec_frame)
            (Samples.connected StructuredMode)
    = Ret (x', [receivedModemStatus Samples.modem_status])
    /\ buffer x' = Samples.spec_frame.
Proof.
  rewrite (deliver_first_of_buffer (hdr := Sample.headers) true
             (Samples.connected StructuredMode) Samples.port 2
             (Samples.modem_status ++ Samples.spec_frame) []
             Samples.modem_status Samples.spec_frame
             eq_refl eq_refl eq_refl (Forall_nil _)
             sample_modem_status_wellFormed).
  - eexists. split; reflexivity.
  - lia.
  - cbn. lia.
Defined.

Lemma deliver_split_frame_witness :
  exists x1 y,
    deliver (hdr := Sample.headers) true
            (Samples.spec_garbage ++ [Byte.x7e; Byte.x00; Byte.x02; Byte.x8a])
            (Samples.connected StructuredMode) = Ret (x1, [])
    /\ buffer x1 = [Byte.x7e; Byte.x00; Byte.x02; Byte.x8a]
    /\ buffer y = Samples.modem_status
    /\ deliver (hdr := Sample.headers) true [Byte.x06; Byte.x6f] x1
       = ('(x', signals) <- processPacket (hdr := Sample.headers) y
                               Samples.modem_status ;;
          Ret (set_buffer x' [], signals)).
Proof.
  apply (deliver_split_frame (hdr := Sample.headers) true
           (Samples.connected StructuredMode) Samples.port 2
           Samples.spec_garbage [Byte.x7e; Byte.x00; Byte.x02; Byte.x8a]
           [Byte.x06; Byte.x6f] eq_refl eq_refl eq_refl eq_refl
           sample_garbage sample_modem_status_wellFormed).
  - lia.
  - discriminate.
Defined.

Lemma deliver_three_bytes_undefined_witness :
  deliver (hdr := Sample.headers) false [Byte.x7e; Byte.x00; Byte.xff]
          (Samples.connected StructuredMode) = Undefined.
Proof.
  apply (deliver_three_bytes_undefined (hdr := Sample.headers) false
           (Samples.connected StructuredMode) Samples.port
           [Byte.x7e; Byte.x00; Byte.xff] Byte.x7e Byte.x00 Byte.xff
           eq_refl eq_refl eq_refl).
  cbv. discriminate.
Defined.

(** ** Transparent mode, in general *)

Section TransparentInGeneral.

Context {hdr : Headers}.
Variable char_is_signed : bool.

(** X13. In transparent mode a delivery that does not end the line emits
    nothing, and with the next delivery behaves as the one delivery of the
    bytes of both: a line is emitted whole, however it was cut by the
    port. *)
Theorem deliver_line_in_pieces (x : XBee) (port : QSerialPort)
        (a b : QByteArray.t) :
  m_serial x = Some port ->
  m_mode x = TransparentMode ->
  QByteArray.endsWith (accumulated x port a) Byte.x0d = false ->
  exists x1,
    deliver char_is_signed a x = Ret (x1, [])
    /\ buffer x1 = accumulated x port a
    /\ deliver char_is_signed b x1 = deliver char_is_signed (a ++ b) x.
Proof.
  intros Hs Hm N.
  exists (set_buffer (set_serial x (drained port)) (accumulated x port a)).
  assert (E : forall bytes y p,
             m_serial y = Some p -> m_mode y = TransparentMode ->
             deliver char_is_signed bytes y
             = if QByteArray.endsWith (accumulated y p bytes) Byte.x0d
               then Ret (set_buffer (set_serial y (drained p)) [],
                         [rawDataReceived (accumulated y p bytes)])
               else Ret (set_buffer (set_serial y (drained p))
                                    (accumulated y p bytes), [])).
  { intros bytes y p Ys Ym. unfold deliver, readData. rewrite Ys. cbn.
    rewrite Ym. unfold accumulated. destruct (QByteArray.endsWith _ _);
      reflexivity. }
  split; [| split; [reflexivity |]].
  - rewrite (E a x port Hs Hm), N. reflexivity.
  - rewrite (E b (set_buffer (set_serial x (drained port))
                             (accumulated x port a))
               (drained port) eq_refl Hm), (E (a ++ b) x port Hs Hm).
    assert (A : accumulated
                  (set_buffer (set_serial x (drained port))
                              (accumulated x port a)) (drained port) b
                = accumulated x port (a ++ b))
      by (unfold accumulated; cbn; now rewrite !app_assoc).
    rewrite A. reflexivity.
Qed.

End TransparentInGeneral.

Lemma deliver_line_in_pieces_witness :
  exists x1,
    deliver (hdr := Sample.headers) true [Byte.x4f]
            (Samples.connected TransparentMode) = Ret (x1, [])
    /\ buffer x1 = [Byte.x4f]
    /\ deliver (hdr := Sample.headers) true [Byte.x4b; Byte.x0d] x1
       = deliver (hdr := Sample.headers) true Samples.ok_line
                 (Samples.connected TransparentMode).
Proof.
  exact (deliver_line_in_pieces (hdr := Sample.headers) true
           (Samples.connected TransparentMode) Samples.port
           [Byte.x4f] [Byte.x4b; Byte.x0d] eq_refl eq_refl eq_refl).
Defined.

(** ** Frame ids over many sends *)

Lemma nextFrameId_mod (c : Z) :
  1 <= c <= 255 -> nextFrameId c = c mod 255 + 1.
Proof.
  intros R. unfold nextFrameId.
  destruct (Z.leb_spec 255 c).
  - assert (c = 255) by lia. subst c. reflexivity.
  - rewrite Z.mod_small by lia. reflexivity.
Qed.

Lemma frameIdAfter_closed (n : nat) (c : Z) :
  1 <= c <= 255 ->
  frameIdAfter n c = (c - 1 + Z.of_nat n) mod 255 + 1.
Proof.
  intros R. unfold frameIdAfter. induction n as [| n IH].
  - cbn. rewrite Z.add_0_r, Z.mod_small by lia. lia.
  - rewrite Nat.iter_succ, IH.
    pose proof (Z.mod_pos_bound (c - 1 + Z.of_nat n) 255 eq_refl).
    rewrite nextFrameId_mod by lia.
    rewrite Z.add_mod_idemp_l by lia. do 2 f_equal. lia.
Qed.


Lemma frameIdAfter_range (c : Z) (n : nat) :
  1 <= c <= 255 -> 1 <= frameIdAfter n c <= 255.
Proof.
  intros R. rewrite frameIdAfter_closed by exact R.
  pose proof (Z.mod_pos_bound (c - 1 + Z.of_nat n) 255 eq_refl). lia.
Qed.

Lemma frameIdAfter_distinct (c : Z) (i j : nat) :
  1 <= c <= 255 ->
  (i < j < i + 255)%nat ->
  frameIdAfter i c <> frameIdAfter j c.
Proof.
  intros R [Lt Near]. rewrite !frameIdAfter_closed by exact R.
  intros E. assert (E' : (c - 1 + Z.of_nat i) mod 255
                         = (c - 1 + Z.of_nat j) mod 255) by lia.
  clear E. Z.div_mod_to_equations. lia.
Qed.

(** X14. From a counter in [1,255], the frame ids given to successive commands
    stay in [1,255], come back after 255 sends exactly, and no two of 255
    successive commands share one. *)
Theorem frame_ids_repeat_every_255 (c : Z) :
  1 <= c <= 255 ->
  (forall n, 1 <= frameIdAfter n c <= 255)
  /\ (forall n, frameIdAfter (n + 255) c = frameIdAfter n c)
  /\ (forall i j, (i < j < i + 255)%nat ->
                  frameIdAfter i c <> frameIdAfter j c).
Proof.
  intros R. split; [| split].
  - intros n. now apply frameIdAfter_range.
  - intros n. rewrite !frameIdAfter_closed by exact R.
    rewrite Nat2Z.inj_add. f_equal.
    replace (c - 1 + (Z.of_nat n + Z.of_nat 255))
      with (c - 1 + Z.of_nat n + 1 * 255) by lia.
    apply Z.mod_add. lia.
  - intros i j Near. now apply frameIdAfter_distinct.
Qed.

Lemma frame_ids_repeat_every_255_witness :
  frameIdAfter 255 1 = frameIdAfter 0 1.
Proof.
  destruct (frame_ids_repeat_every_255 1) as [_ [Period _]]; [lia |].
  exact (Period 0%nat).
Defined.





Lemma queryEach_dropped (codes : list string) :
  forall (x : XBee) (port : QSerialPort) (at_ : DigiMeshFrame),
    m_serial x = Some port ->
    transport_ready x = false ->
    exists at', queryEach codes x at_ = Ret (x, at').
Proof.
  induction codes as [| code r IH]; intros x port at_ Hs R.
  - now exists at_.
  - cbn [queryEach].
    rewrite (sendATCommandAsync_dropped x port _ Hs R). cbn [bind].
    apply (IH x port _ Hs R).
Qed.


(** X16. On a transport that is not usable [loadAddressingProperties] drops the
    fifteen queries and leaves the object as it was. *)
Theorem loadAddressingProperties_dropped (x : XBee) (port : QSerialPort) :
  m_serial x = Some port ->
  transport_ready x = false ->
  loadAddressingProperties x = Ret x.
Proof.
  intros Hs R. unfold loadAddressingProperties.
  destruct (queryEach_dropped addressingCodes x port ATCommandFrame Hs R)
    as [at' E].
  now rewrite E.
Qed.


Lemma loadAddressingProperties_dropped_witness :
  loadAddressingProperties Samples.disconnected = Ret Samples.disconnected.
Proof.
  exact (loadAddressingProperties_dropped Samples.disconnected
           Samples.closed_port eq_refl eq_refl).
Defined.

(** ** Setters and the synchronous send *)






Lemma sendATCommandSync_leaves (x : XBee) (port : QSerialPort)
        (cmd : DigiMeshFrame) :
  m_serial x = Some port ->
  exists x' rep port',
    sendATCommandSync x cmd
    = Ret (x', setFrameId cmd (m_frameIdCounter x), rep)
    /\ m_serial x' = Some port'
    /\ m_frameIdCounter x' = nextFrameId (m_frameIdCounter x)
    /\ signalsBlocked port' = false
    /\ unread port' = []
    /\ isOpen port' = isOpen port
    /\ (isOpen port = false -> written port' = written port)
    /\ buffer x' = buffer x /\ same_properties x x'
    /\ m_mode x' = m_mode x /\ xbeeFound x' = xbeeFound x.
Proof.
  intros Hs. unfold sendATCommandSync. cbn. rewrite Hs.
  set (c := setFrameId cmd (m_frameIdCounter x)).
  set (p := waitForReadyRead _).
  assert (D : unread (snd (drain p [])) = []
              /\ isOpen (snd (drain p [])) = isOpen port
              /\ (isOpen port = false ->
                  written (snd (drain p [])) = written port)).
  { subst p. unfold drain, atEnd, readAll, waitForReadyRead,
      waitForBytesWritten, write, blockSignals.
    destruct port as [o s w u l]; cbn. destruct o; cbn.
    - destruct l as [| t l]; cbn; destruct u; cbn;
        try (destruct t; cbn); repeat split; discriminate.
    - destruct u; cbn; repeat split. }
  destruct (drain p []) as [repPacket p'] eqn:E. cbn in D.
  destruct D as [U [O W]].
  do 3 eexists. split; [reflexivity |]. cbn. repeat split; assumption.
Qed.

(** X19. [sendATCommandSync] on bytes: fewer than two bytes are refused, with
    no frame id used and nothing sent; otherwise the first two bytes are the
    command and the bytes after them the parameter of the one command
    written, so that no byte is lost, and the response is that of the
    synchronous send. *)
Theorem sendATCommandSync_data_splits (x : XBee) (port : QSerialPort)
        (data_ : QByteArray.t) :
  m_serial x = Some port ->
  isOpen port = true ->
  (QByteArray.size data_ < 2 ->
   sendATCommandSync_data x data_ = Ret (x, None))
  /\ (2 <= QByteArray.size data_ ->
      exists x' rep port' q,
        sendATCommandSync_data x data_ = Ret (x', rep)
        /\ m_serial x' = Some port'
        /\ written port' = written port ++ [q]
        /\ frameId q = m_frameIdCounter x
        /\ list_byte_of_string (command q) = firstn 2 data_
        /\ list_byte_of_string (parameter q) = skipn 2 data_
        /\ list_byte_of_string (command q)
           ++ list_byte_of_string (parameter q) = data_
        /\ rep = (if 0 <? QByteArray.size (available port)
                  then Some (setPacket (available port)) else None)).
Proof.
  intros Hs Open. unfold sendATCommandSync_data. split.
  - intros S. destruct (Z.leb_spec 2 (QByteArray.size data_)); [lia |].
    reflexivity.
  - intros S. destruct (Z.leb_spec 2 (QByteArray.size data_)); [| lia].
    set (at_ := if 2 <? _ then _ else _).
    assert (C : list_byte_of_string (command at_) = firstn 2 data_).
    { subst at_. destruct (2 <? _); cbn [command setParameter setCommand];
        rewrite list_byte_of_string_of_list_byte;
        unfold QByteArrayMore.mid;
        (destruct (Z.leb_spec (QByteArray.size data_) 0); [lia |]);
        (destruct (Z.ltb_spec (QByteArray.size data_) (0 + 2)); [lia |]);
        reflexivity. }
    assert (P : list_byte_of_string (parameter at_) = skipn 2 data_).
    { subst at_. destruct (Z.ltb_spec 2 (QByteArray.size data_)).
      - cbn [parameter setParameter].
        rewrite list_byte_of_string_of_list_byte. unfold QByteArrayMore.mid.
        destruct (Z.leb_spec (QByteArray.size data_) 2); [lia |].
        destruct (Z.ltb_spec (QByteArray.size data_ - 2) 0); [lia |].
        destruct (Z.ltb_spec (QByteArray.size data_)
                    (2 + (QByteArray.size data_ - 2))); [lia |].
        cbn [orb]. apply firstn_all2. rewrite length_skipn.
        unfold QByteArray.size. lia.
      - transitivity (@nil Byte.byte); [reflexivity |].
        symmetry. apply skipn_all2. unfold QByteArray.size in *.
        apply Nat2Z.inj_le. assumption. }
    destruct (sendATCommandSync_response x port at_ Hs)
      as [x' [E [_ [_ [port' [S' [_ [W _]]]]]]]].
    rewrite E. cbn [bind]. rewrite Open in W.
    do 2 eexists. exists port', (setFrameId at_ (m_frameIdCounter x)).
    split; [reflexivity |]. split; [exact S' |]. split; [exact W |].
    split; [reflexivity |]. cbn [command parameter setFrameId].
    split; [exact C |]. split; [exact P |].
    split; [rewrite C, P; apply firstn_skipn | reflexivity].
Qed.

Lemma sendATCommandSync_data_splits_witness :
  sendATCommandSync_data (Samples.connected StructuredMode) [Byte.x41]
  = Ret (Samples.connected StructuredMode, None).
Proof.
  destruct (sendATCommandSync_data_splits (Samples.connected StructuredMode)
              Samples.port [Byte.x41] eq_refl eq_refl) as [Short _].
  apply Short. cbn. lia.
Defined.

(** ** The handshake, in general *)

Lemma frameIdAfter_add (n m : nat) (c : Z) :
  frameIdAfter (n + m) c = frameIdAfter m (frameIdAfter n c).
Proof.
  unfold frameIdAfter. rewrite Nat.add_comm. apply Nat.iter_add.
Qed.

Lemma map_seq_from (A : Type) (f : nat -> A) (k n : nat) :
  map f (seq k n) = map (fun i => f (k + i)%nat) (seq 0 n).
Proof.
  revert k. induction n as [| n IH]; intros k; [reflexivity |].
  cbn [seq map]. rewrite Nat.add_0_r. f_equal.
  rewrite (IH (S k)), <- seq_shift, map_map. apply map_ext. intros i.
  f_equal. lia.
Qed.

Lemma sent_by_trans (x x1 x2 : XBee) (port port1 port2 : QSerialPort)
      (log1 log2 : list DigiMeshFrame) :
  sent_by x x1 port port1 log1 ->
  sent_by x1 x2 port1 port2 log2 ->
  sent_by x x2 port port2 (log1 ++ log2).
Proof.
  intros [S [S1 [O1 [W1 [I1 [C1 [F1 [M1 [B1 [A1 N1]]]]]]]]]]
         [_ [S2 [O2 [W2 [I2 [C2 [F2 [M2 [B2 [A2 N2]]]]]]]]]].
  unfold sent_by. rewrite length_app.
  split; [exact S |]. split; [exact S2 |]. split; [congruence |].
  split; [| split; [| split; [| repeat split; try congruence]]].
  - rewrite W2, O1, W1. destruct (isOpen port); [| reflexivity].
    now rewrite app_assoc.
  - unfold ids in *. rewrite map_app, seq_app, map_app, I1, I2. f_equal.
    rewrite C1. cbn [Nat.add]. rewrite (map_seq_from _ _ (List.length log1)).
    apply map_ext. intros i. now rewrite frameIdAfter_add.
  - rewrite C2, C1. symmetry. apply frameIdAfter_add.
Qed.

Lemma sent_by_sync (x : XBee) (port : QSerialPort) (cmd : DigiMeshFrame) :
  m_serial x = Some port ->
  exists x' rep port',
    sendATCommandSync x cmd
    = Ret (x', setFrameId cmd (m_frameIdCounter x), rep)
    /\ rep = (if 0 <? QByteArray.size (available port)
              then Some (setPacket (available port)) else None)
    /\ line port' = (if isOpen port then tl (line port) else line port)
    /\ unread port' = []
    /\ signalsBlocked port' = false
    /\ sent_by x x' port port' [setFrameId cmd (m_frameIdCounter x)].
Proof.
  intros Hs.
  destruct (sendATCommandSync_response x port cmd Hs)
    as [x' [E [C [F [port' [S' [O [W L]]]]]]]].
  destruct (sendATCommandSync_leaves x port cmd Hs)
    as [y [rep [q [E' [Sq [_ [Bl [U [_ [_ [B [P [M _]]]]]]]]]]]]].
  rewrite E in E'. injection E' as <- <-.
  rewrite S' in Sq. injection Sq as <-.
  exists x'. eexists. exists port'.
  split; [exact E |]. split; [reflexivity |].
  split; [exact L |]. split; [exact U |]. split; [exact Bl |].
  unfold sent_by. cbn [List.length seq map ids frameId setFrameId].
  repeat split; trivial; apply P.
Qed.

(** X20. A synchronous send gives the command the next frame id and advances
    the counter whatever the state of the port (where the asynchronous send
    does so on a usable transport only); it writes the command if the port
    is open and nothing if it is not, leaves the signals of the port
    unblocked and the port with nothing unread, and touches neither the
    buffer of the deframer nor a stored property. *)
Theorem sendATCommandSync_effects (x : XBee) (port : QSerialPort)
        (cmd : DigiMeshFrame) :
  m_serial x = Some port ->
  exists x' rep port',
    sendATCommandSync x cmd
    = Ret (x', setFrameId cmd (m_frameIdCounter x), rep)
    /\ m_serial x' = Some port'
    /\ m_frameIdCounter x' = nextFrameId (m_frameIdCounter x)
    /\ written port'
       = (if isOpen port
          then written port ++ [setFrameId cmd (m_frameIdCounter x)]
          else written port)
    /\ signalsBlocked port' = false
    /\ unread port' = []
    /\ buffer x' = buffer x /\ same_properties x x'
    /\ m_mode x' = m_mode x /\ xbeeFound x' = xbeeFound x.
Proof.
  intros Hs.
  destruct (sent_by_sync x port cmd Hs)
    as [x' [rep [port' [E [_ [_ [U [Bl T]]]]]]]].
  destruct T as [_ [S' [_ [W [_ [C [F [M [B P]]]]]]]]].
  exists x', rep, port'. split; [exact E |]. split; [exact S' |].
  split; [exact C |]. split; [exact W |]. split; [exact Bl |].
  split; [exact U |]. split; [exact B |]. split; [exact P |].
  split; [exact M | exact F].
Qed.

Lemma sendATCommandSync_effects_witness :
  exists x' rep port',
    sendATCommandSync Samples.disconnected ATCommandFrame
    = Ret (x', setFrameId ATCommandFrame 1, rep)
    /\ m_serial x' = Some port'
    /\ m_frameIdCounter x' = 2
    /\ written port' = [].
Proof.
  destruct (sendATCommandSync_effects Samples.disconnected
              Samples.closed_port ATCommandFrame eq_refl)
    as [x' [rep [port' [E [S [C [W _]]]]]]].
  exists x', rep, port'. repeat split; assumption.
Defined.

Section Handshake.

Context {hdr : Headers}.

Lemma startupCheck_AP_sent (x : XBee) (port : QSerialPort) :
  m_serial x = Some port ->
  exists x1 b port1 log,
    startupCheck_AP x = Ret (x1, b)
    /\ sent_by x x1 port port1 log
    /\ (map command log = ["AP"%string]
        \/ map command log = ["AP"%string; "AP"%string]).
Proof.
  intros Hs. unfold startupCheck_AP.
  destruct (sent_by_sync x port (setCommand ATCommandFrame "AP") Hs)
    as [x1 [rep1 [port1 [E1 [_ [_ [_ [_ T1]]]]]]]].
  rewrite E1. cbn [bind].
  assert (One : forall b : bool,
             exists x' (b' : bool) port' log,
               Ret (x1, b) = Ret (x', b')
               /\ sent_by x x' port port' log
               /\ (map command log = ["AP"%string]
                   \/ map command log = ["AP"%string; "AP"%string])).
  { intros b. exists x1, b, port1. eexists. split; [reflexivity |].
    split; [exact T1 | now left]. }
  destruct rep1 as [r1 |]; [| apply One].
  destruct (commandStatus (packet r1)); [| apply One].
  destruct (dataToInt r1) as [apmode |]; [| apply One].
  destruct (negb (apmode =? 1)); [| apply One].
  assert (S1 : m_serial x1 = Some port1) by apply T1.
  destruct (sent_by_sync x1 port1
              (setParameter (setFrameId (setCommand ATCommandFrame "AP")
                                        (m_frameIdCounter x)) "1") S1)
    as [x2 [rep2 [port2 [E2 [_ [_ [_ [_ T2]]]]]]]].
  rewrite E2. cbn [bind].
  pose proof (sent_by_trans _ _ _ _ _ _ _ _ T1 T2) as T.
  assert (Two : forall b : bool,
             exists x' (b' : bool) port' log,
               Ret (x2, b) = Ret (x', b')
               /\ sent_by x x' port port' log
               /\ (map command log = ["AP"%string]
                   \/ map command log = ["AP"%string; "AP"%string])).
  { intros b. exists x2, b, port2. eexists. split; [reflexivity |].
    split; [exact T | now right]. }
  destruct rep2 as [r2 |]; [| apply Two].
  destruct (commandStatus (packet r2)); apply Two.
Qed.

Lemma startupCheck_HV_sent (x : XBee) (port : QSerialPort) (bRet : bool) :
  m_serial x = Some port ->
  exists x2 b port2 log,
    startupCheck_HV x bRet = Ret (x2, b)
    /\ sent_by x x2 port port2 log
    /\ map command log = ["HV"%string]
    /\ (b = true -> bRet = true).
Proof.
  intros Hs. unfold startupCheck_HV.
  destruct (sent_by_sync x port (setCommand ATCommandFrame "HV") Hs)
    as [x2 [rep [port2 [E [_ [_ [_ [_ T]]]]]]]].
  rewrite E. cbn [bind].
  assert (No : exists x' (b' : bool) port' log,
             Ret (x2, false) = Ret (x', b')
             /\ sent_by x x' port port' log
             /\ map command log = ["HV"%string]
             /\ (b' = true -> bRet = true)).
  { exists x2, false, port2. eexists. split; [reflexivity |].
    split; [exact T |]. split; [reflexivity | discriminate]. }
  destruct rep as [r |]; [| exact No].
  destruct (commandStatus (packet r)); [| exact No].
  destruct (dataToInt r) as [hv |]; [| exact No].
  destruct ((hv =? XBeeSerie1) || negb (XBeeSerie1Pro =? 0)); [| exact No].
  exists x2, (bRet && true), port2. eexists. split; [reflexivity |].
  split; [exact T |]. split; [reflexivity |].
  now rewrite andb_true_r.
Qed.

Lemma startupCheck_sent (x : XBee) (port : QSerialPort) :
  m_serial x = Some port ->
  xbeeFound x = true ->
  exists x' b port' log,
    startupCheck x = Ret (x', b)
    /\ sent_by x x' port port' log
    /\ (map command log = ["AP"; "HV"]%string
        \/ map command log = ["AP"; "AP"; "HV"]%string)
    /\ (b = true -> exists x1, startupCheck_AP x = Ret (x1, true)).
Proof.
  intros Hs F. unfold startupCheck. rewrite F.
  destruct (startupCheck_AP_sent x port Hs)
    as [x1 [b1 [port1 [log1 [E1 [T1 C1]]]]]].
  rewrite E1. cbn [bind].
  assert (S1 : m_serial x1 = Some port1) by apply T1.
  destruct (startupCheck_HV_sent x1 port1 b1 S1)
    as [x2 [b [port2 [log2 [E2 [T2 [C2 Only]]]]]]].
  rewrite E2. exists x2, b, port2, (log1 ++ log2).
  split; [reflexivity |].
  split; [exact (sent_by_trans _ _ _ _ _ _ _ _ T1 T2) |]. split.
  - rewrite map_app, C2. destruct C1 as [-> | ->]; [now left | now right].
  - intros B. exists x1. now rewrite <- (Only B).
Qed.

(** X21. A handshake on a found object with an open port always sends the query
    [HV], also after a mode step that failed: it writes [AP], [HV] or [AP],
    [AP], [HV], each with the next frame id, and the counter advances by two
    or three. The replies are read by the synchronous sends alone: the
    buffer of the deframer and the stored properties are as before. The
    handshake returns [true] only if its mode step did. *)
Theorem startupCheck_sends (x : XBee) (port : QSerialPort) :
  m_serial x = Some port ->
  xbeeFound x = true ->
  isOpen port = true ->
  exists x' b port' log,
    startupCheck x = Ret (x', b)
    /\ m_serial x' = Some port'
    /\ written port' = written port ++ log
    /\ (map command log = ["AP"; "HV"]%string
        \/ map command log = ["AP"; "AP"; "HV"]%string)
    /\ ids log
       = map (fun i => frameIdAfter i (m_frameIdCounter x))
             (seq 0 (List.length log))
    /\ m_frameIdCounter x'
       = frameIdAfter (List.length log) (m_frameIdCounter x)
    /\ buffer x' = buffer x /\ same_properties x x'
    /\ (b = true -> exists x1, startupCheck_AP x = Ret (x1, true)).
Proof.
  intros Hs F O.
  destruct (startupCheck_sent x port Hs F)
    as [x' [b [port' [log [E [T [Shape Only]]]]]]].
  destruct T as [_ [S' [_ [W [I [C [_ [_ [B P]]]]]]]]].
  rewrite O in W.
  exists x', b, port', log. split; [exact E |]. split; [exact S' |].
  split; [exact W |]. split; [exact Shape |]. split; [exact I |].
  split; [exact C |]. split; [exact B |]. split; [exact P | exact Only].
Qed.

(** X22. With a device that never answers (nothing unread, nothing on the line)
    the handshake on a found object with an open port returns [false] after
    it wrote exactly the two queries [AP] and [HV]. *)
Theorem startupCheck_silent (x : XBee) (port : QSerialPort) :
  m_serial x = Some port ->
  xbeeFound x = true ->
  isOpen port = true ->
  unread port = [] -> line port = [] ->
  exists x' port',
    startupCheck x = Ret (x', false)
    /\ m_serial x' = Some port'
    /\ written port'
       = written port
         ++ [mkCommand (m_frameIdCounter x) "AP" "";
             mkCommand (nextFrameId (m_frameIdCounter x)) "HV" ""].
Proof.
  intros Hs F O U L. unfold startupCheck, startupCheck_AP. rewrite F.
  assert (Quiet : forall p, unread p = [] -> line p = [] ->
                            available p = []).
  { intros p Up Lp. unfold available, waitForReadyRead.
    rewrite Lp. now destruct (isOpen p). }
  destruct (sent_by_sync x port (setCommand ATCommandFrame "AP") Hs)
    as [x1 [rep1 [port1 [E1 [R1 [L1 [U1 [_ T1]]]]]]]].
  rewrite (Quiet port U L) in R1. cbn in R1. subst rep1.
  rewrite E1. cbn [bind]. unfold startupCheck_HV.
  destruct T1 as [_ [S1 [O1 [W1 [_ [C1 _]]]]]].
  rewrite O, L in L1. cbn in L1.
  destruct (sent_by_sync x1 port1 (setCommand ATCommandFrame "HV") S1)
    as [x2 [rep2 [port2 [E2 [R2 [_ [_ [_ T2]]]]]]]].
  rewrite (Quiet port1 U1 L1) in R2. cbn in R2. subst rep2.
  rewrite E2. cbn [bind]. exists x2, port2. split; [reflexivity |].
  destruct T2 as [_ [S2 [_ [W2 _]]]]. split; [exact S2 |].
  rewrite W2, O1, O, W1, O, <- app_assoc. cbn [app setFrameId setCommand
    ATCommandFrame command parameter].
  rewrite C1. reflexivity.
Qed.

(** X23. [initSerialConnection] returns [false] without a port; with one it
    returns whether the port was opened by the call (it was closed and the
    system granted it), and then the object is found and its port open,
    whatever the handshake it runs found out; when the port is not opened
    the object is left as it was. *)
Theorem initSerialConnection_result (granted : bool) (x : XBee) :
  (m_serial x = None -> initSerialConnection granted x = Ret (x, false))
  /\ (forall port,
         m_serial x = Some port ->
         exists x',
           initSerialConnection granted x
           = Ret (x', granted && negb (isOpen port))
           /\ (granted && negb (isOpen port) = true ->
               xbeeFound x' = true
               /\ exists port', m_serial x' = Some port'
                                /\ isOpen port' = true)
           /\ (granted && negb (isOpen port) = false -> x' = x)).
Proof.
  unfold initSerialConnection. split; [now intros -> |].
  intros port Hs. rewrite Hs. unfold port_open.
  assert (Same : set_serial x port = x)
    by (destruct x; unfold set_serial; cbn in *; now rewrite Hs).
  destruct (isOpen port) eqn:O.
  - rewrite andb_false_r, Same. exists x. repeat split; discriminate.
  - destruct granted; cbn [andb negb].
    + cbn [isOpen].
      set (p1 := mkPort true _ _ _ _).
      set (x1 := set_xbeeFound (set_serial x p1) true).
      destruct (startupCheck_sent x1 p1 eq_refl eq_refl)
        as [x' [b [port' [log [E [T _]]]]]].
      rewrite E. cbn [bind]. exists x'. split; [reflexivity |].
      split; [| discriminate]. intros _.
      destruct T as [_ [S' [O' [_ [_ [_ [F' _]]]]]]].
      split; [exact F' |]. exists port'. split; [exact S' | exact O'].
    + rewrite Same. exists x. repeat split; discriminate.
Qed.

End Handshake.

Lemma startupCheck_sends_witness :
  exists x' b port' log,
    startupCheck (hdr := Sample.headers)
      (Samples.connected_with [Samples.ap_is_2; Samples.ap_set_ok;
                               Samples.hv_is_1234])
    = Ret (x', b)
    /\ m_serial x' = Some port'
    /\ written port' = log
    /\ buffer x' = [].
Proof.
  destruct (startupCheck_sends (hdr := Sample.headers)
              (Samples.connected_with [Samples.ap_is_2; Samples.ap_set_ok;
                                       Samples.hv_is_1234])
              (Samples.port_with [Samples.ap_is_2; Samples.ap_set_ok;
                                  Samples.hv_is_1234])
              eq_refl eq_refl eq_refl)
    as [x' [b [port' [log [E [S [W [_ [_ [_ [B _]]]]]]]]]]].
  exists x', b, port', log. split; [exact E |]. split; [exact S |].
  split; [exact W | exact B].
Defined.

Lemma startupCheck_silent_witness :
  exists x' port',
    startupCheck (hdr := Sample.headers) (Samples.connected StructuredMode)
    = Ret (x', false)
    /\ m_serial x' = Some port'
    /\ written port' = [mkCommand 1 "AP" ""; mkCommand 2 "HV" ""].
Proof.
  exact (startupCheck_silent (hdr := Sample.headers)
           (Samples.connected StructuredMode) Samples.port
           eq_refl eq_refl eq_refl eq_refl eq_refl).
Defined.

Lemma initSerialConnection_result_witness :
  exists x',
    initSerialConnection (hdr := Sample.headers) true Samples.disconnected
    = Ret (x', true)
    /\ xbeeFound x' = true.
Proof.
  destruct (initSerialConnection_result (hdr := Sample.headers) true
              Samples.disconnected) as [_ Port].
  destruct (Port Samples.closed_port eq_refl) as [x' [E [Opened _]]].
  exists x'. split; [exact E |]. now apply Opened.
Defined.


(** ** Invariants over sequences of calls *)

Lemma sent_by_keeps (x x' : XBee) (port port' : QSerialPort)
      (log : list DigiMeshFrame) :
  sent_by x x' port port' log ->
  well_kept x -> well_kept x' /\ m_mode x' = m_mode x.
Proof.
  intros [_ [S' [_ [_ [_ [C [_ [M _]]]]]]]] [_ R].
  split; [| exact M]. split; [congruence |]. rewrite C.
  now apply frameIdAfter_range.
Qed.

Lemma async_keeps (x x' : XBee) (cmd cmd' : DigiMeshFrame) :
  sendATCommandAsync x cmd = Ret (x', cmd') ->
  well_kept x -> well_kept x' /\ m_mode x' = m_mode x.
Proof.
  unfold sendATCommandAsync. intros E [S R].
  destruct (m_serial x) as [port |] eqn:Hs; [| discriminate].
  destruct (xbeeFound x && isOpen port); injection E as <- _.
  - split; [| reflexivity]. split; [discriminate |]. cbn.
    now apply nextFrameId_range.
  - split; [split; [congruence | exact R] | reflexivity].
Qed.

Lemma queryEach_keeps (codes : list string) :
  forall (x x' : XBee) (at_ at' : DigiMeshFrame),
    queryEach codes x at_ = Ret (x', at') ->
    well_kept x -> well_kept x' /\ m_mode x' = m_mode x.
Proof.
  induction codes as [| code r IH]; intros x x' at_ at' E K.
  - injection E as <- _. now split.
  - cbn [queryEach] in E.
    destruct (sendATCommandAsync x (setCommand at_ code))
      as [[x1 a1] |] eqn:A; [| discriminate]. cbn [bind] in E.
    destruct (async_keeps _ _ _ _ A K) as [K1 M1].
    destruct (IH _ _ _ _ E K1) as [K' M']. split; [exact K' | congruence].
Qed.

Section Sequences.

Context {hdr : Headers}.
Variable char_is_signed : bool.

Lemma deliver_keeps (x x' : XBee) (bytes : QByteArray.t)
      (signals : list Signal) :
  deliver char_is_signed bytes x = Ret (x', signals) ->
  m_serial x' <> None
  /\ m_frameIdCounter x' = m_frameIdCounter x
  /\ m_mode x' = m_mode x /\ xbeeFound x' = xbeeFound x.
Proof.
  intros E. destruct (m_serial x) as [port |] eqn:Hs;
    [| unfold deliver in E; now rewrite Hs in E].
  destruct (m_mode x) eqn:Hm.
  - destruct (deliver_transparent char_is_signed x port bytes Hs Hm)
      as [y [E' _]].
    unfold deliver, readData in E. rewrite Hs in E. cbn in E.
    rewrite Hm in E.
    destruct (QByteArray.endsWith _ _); injection E as <- _;
      cbn; repeat split; trivial; discriminate.
  - rewrite (deliver_aligned char_is_signed x port bytes Hs Hm) in E.
    destruct (extract _ _) as [[pkt |] rest].
    + destruct (processPacket (aligned x port bytes) pkt)
        as [[x1 s1] |] eqn:P; [| discriminate].
      cbn in E. injection E as <- _.
      destruct (processPacket_session _ _ _ _ P) as [S [F [M [C _]]]].
      cbn. rewrite S, F, M, C. cbn. repeat split; trivial; discriminate.
    + injection E as <- _. cbn. repeat split; trivial; discriminate.
Qed.

Lemma startupCheck_keeps (x x' : XBee) (b : bool) :
  startupCheck x = Ret (x', b) ->
  well_kept x -> well_kept x' /\ m_mode x' = m_mode x.
Proof.
  intros E K. destruct (xbeeFound x) eqn:F.
  - destruct (m_serial x) as [port |] eqn:Hs; [| now destruct K].
    destruct (startupCheck_sent x port Hs F)
      as [y [b' [port' [log [E' [T _]]]]]].
    rewrite E in E'. injection E' as <- _.
    exact (sent_by_keeps _ _ _ _ _ T K).
  - unfold startupCheck in E. rewrite F in E. injection E as <- _.
    now split.
Qed.

Lemma call_keeps (c : Call) (x x' : XBee) :
  call char_is_signed c x = Ret x' ->
  well_kept x -> well_kept x' /\ m_mode x' = m_mode x.
Proof.
  intros E K. destruct c as [cmd | cmd | d | | p v | ni | bytes | | g];
    cbn [call] in E.
  - destruct (sendATCommandAsync x cmd) as [[y q] |] eqn:A; [| discriminate].
    injection E as <-. exact (async_keeps _ _ _ _ A K).
  - destruct (m_serial x) as [port |] eqn:Hs; [| now destruct K].
    destruct (sent_by_sync x port cmd Hs) as [y [r [p' [A [_ [_ [_ [_ T]]]]]]]].
    rewrite A in E. injection E as <-. exact (sent_by_keeps _ _ _ _ _ T K).
  - unfold sendATCommandSync_data in E.
    destruct (2 <=? QByteArray.size d); [| injection E as <-; now split].
    destruct (m_serial x) as [port |] eqn:Hs; [| now destruct K].
    set (a := if 2 <? _ then _ else _) in E.
    destruct (sent_by_sync x port a Hs) as [y [r [p' [A [_ [_ [_ [_ T]]]]]]]].
    rewrite A in E. injection E as <-. exact (sent_by_keeps _ _ _ _ _ T K).
  - unfold loadAddressingProperties in E.
    destruct (queryEach addressingCodes x ATCommandFrame)
      as [[y q] |] eqn:A; [| discriminate].
    injection E as <-. exact (queryEach_keeps _ _ _ _ _ A K).
  - unfold setNumeric in E.
    destruct (sendATCommandAsync x _) as [[y q] |] eqn:A; [| discriminate].
    injection E as <-. exact (async_keeps _ _ _ _ A K).
  - unfold setNI in E.
    destruct (sendATCommandAsync x _) as [[y q] |] eqn:A; [| discriminate].
    injection E as <-. exact (async_keeps _ _ _ _ A K).
  - destruct (deliver char_is_signed bytes x) as [[y s] |] eqn:A;
      [| discriminate].
    injection E as <-. destruct (deliver_keeps _ _ _ _ A) as [S [C [M _]]].
    split; [| exact M]. split; [exact S |]. rewrite C. apply K.
  - destruct (startupCheck x) as [[y b] |] eqn:A; [| discriminate].
    injection E as <-. exact (startupCheck_keeps _ _ _ A K).
  - unfold initSerialConnection in E.
    destruct (m_serial x) as [port |] eqn:Hs; [| now destruct K].
    destruct (port_open g port) as [opened port1] eqn:P.
    assert (K1 : well_kept (set_xbeeFound (set_serial x port1) true)
                 /\ well_kept (set_serial x port1))
      by (split; (split; [discriminate | apply K])).
    destruct opened; [destruct (isOpen port1) |].
    + destruct (startupCheck _) as [[y b] |] eqn:A; [| discriminate].
      injection E as <-.
      exact (startupCheck_keeps _ _ _ A (proj1 K1)).
    + injection E as <-. split; [apply K1 | reflexivity].
    + injection E as <-. split; [apply K1 | reflexivity].
Qed.

(** X24. Whatever calls are made on an object that has a port and a frame id
    counter in [1,255], in whatever order, for as long as they return: the
    object still has a port, the counter is still in [1,255] (so that every
    frame id given is), and the mode is the one it had. *)
Theorem calls_keep_invariants (l : list Call) :
  forall x x',
    calls char_is_signed l x = Ret x' ->
    well_kept x ->
    well_kept x' /\ m_mode x' = m_mode x.
Proof.
  induction l as [| c r IH]; intros x x' E K.
  - injection E as <-. now split.
  - cbn [calls] in E.
    destruct (call char_is_signed c x) as [x1 |] eqn:A; [| discriminate].
    cbn [bind] in E. destruct (call_keeps c x x1 A K) as [K1 M1].
    destruct (IH x1 x' E K1) as [K' M']. split; [exact K' | congruence].
Qed.


End Sequences.

Lemma calls_keep_invariants_witness :
  exists x',
    calls (hdr := Sample.headers) true
          [CallSendAsync ATCommandFrame; CallReadyRead Samples.dh_ok;
           CallSendSync ATCommandFrame]
          (Samples.connected StructuredMode) = Ret x'
    /\ well_kept x'
    /\ m_mode x' = StructuredMode.
Proof.
  destruct (calls (hdr := Sample.headers) true
              [CallSendAsync ATCommandFrame; CallReadyRead Samples.dh_ok;
               CallSendSync ATCommandFrame]
              (Samples.connected StructuredMode)) as [x' |] eqn:E.
  - exists x'. split; [reflexivity |].
    apply (calls_keep_invariants (hdr := Sample.headers) true _ _ _ E).
    split; [discriminate | cbn; lia].
  - vm_compute in E. discriminate E.
Defined.

